(** * Teacup_Arm: timer-avr.c (step compare scheduling) and home.c (homing)

    Shallow embedding of the step timer of [timer-avr.c] and of the homing
    routines of [home.c].  Integers are [Z] with the C wrap-around written
    out; timer registers are fields of a record threaded through the code. *)

From Stdlib Require Import ZArith List Bool Lia.
From Stdlib Require Import Reals Lra Psatz.
Import ListNotations.

Open Scope Z_scope.

(* ------------------------------------------------------------------ *)
(** ** Machine arithmetic *)

(** The two builds of [timer-avr.c]: avr-gcc, where [int] and [unsigned int]
    are 16 bits wide (so [uint16_t] is [unsigned int] and is not promoted),
    and the host SIMULATOR build, where [int] is 32 bits and [uint16_t]
    operands are promoted to [int]. *)
Inductive platform := AVR | Host.

(** Conversion of an integer to [uint32_t]. *)
Definition u32 (z : Z) : Z := z mod 2 ^ 32.

(** Conversion of an integer to 16-bit [unsigned int] (AVR). *)
Definition u16 (z : Z) : Z := z mod 2 ^ 16.

(** [MASK(b)] of pinio.h / arch headers. *)
Definition MASK (b : Z) : Z := Z.shiftl 1 b.

(** Bit positions of TIMSK1 on the ATmega. *)
Definition OCIE1A : Z := 1.
Definition OCIE1B : Z := 2.

(* ------------------------------------------------------------------ *)
(** ** Timer 1 state *)

(** Hardware registers of timer 1 that the code touches, the global
    [next_step_time] and the global interrupt flag (SREG I bit). *)
Record timer1 := mkTimer1 {
  OCR1A : Z;              (* uint16_t, step compare *)
  TCNT1 : Z;              (* uint16_t, free running counter *)
  TIMSK1 : Z;             (* uint8_t, interrupt mask *)
  next_step_time : Z;     (* uint32_t *)
  sreg_I : bool           (* global interrupts enabled *)
}.

Definition set_OCR1A (v : Z) (s : timer1) : timer1 :=
  mkTimer1 v (TCNT1 s) (TIMSK1 s) (next_step_time s) (sreg_I s).
Definition set_TIMSK1 (v : Z) (s : timer1) : timer1 :=
  mkTimer1 (OCR1A s) (TCNT1 s) v (next_step_time s) (sreg_I s).
Definition set_next_step_time (v : Z) (s : timer1) : timer1 :=
  mkTimer1 (OCR1A s) (TCNT1 s) (TIMSK1 s) v (sreg_I s).
Definition set_TCNT1 (v : Z) (s : timer1) : timer1 :=
  mkTimer1 (OCR1A s) v (TIMSK1 s) (next_step_time s) (sreg_I s).
Definition set_sreg_I (v : bool) (s : timer1) : timer1 :=
  mkTimer1 (OCR1A s) (TCNT1 s) (TIMSK1 s) (next_step_time s) v.

(** Whether the step compare interrupt is enabled in TIMSK1. *)
Definition ocie1a_enabled (s : timer1) : bool := Z.testbit (TIMSK1 s) OCIE1A.

Section Timer.

(** Build configuration: whether [ACCELERATION_TEMPORAL] is defined, and
    which compiler the file is built with. *)
Variable acceleration_temporal : bool.
Variable plat : platform.

(** The short-request test of [timer_set]:
    [(current_time - step_start) + 200 > delay] with [current_time] and
    [step_start] of type [uint16_t] and [delay] of type [int32_t]. *)
Definition short_request (current_time step_start delay : Z) : bool :=
  match plat with
  | AVR => (* unsigned int arithmetic, then converted to long *)
      delay <? u16 (u16 (current_time - step_start) + 200)
  | Host => (* promoted to int *)
      delay <? (current_time - step_start) + 200
  end.

(** [uint8_t timer_set(int32_t delay, uint8_t check_short)]: returns the
    result flag and the new timer state. *)
Definition timer_set (delay : Z) (check_short : bool) (s0 : timer1) : Z * timer1 :=
  (* cli(); *)
  let s1 := set_sreg_I false s0 in
  let step_start := OCR1A s1 in
  let s2 := set_next_step_time (u32 delay) s1 in
  if acceleration_temporal && check_short
     && short_request (TCNT1 s2) step_start delay
  then (1, s2)
  else
    let n := next_step_time s2 in
    let s3 :=
      if n <? 65536 then
        set_OCR1A (Z.land (u32 (n + step_start)) 65535) s2
      else if n <? 75536 then
        set_next_step_time (u32 (n + 10000))
          (set_OCR1A (Z.land (step_start - 10000) 65535) s2)
      else set_OCR1A step_start s2 in
    (0, set_TIMSK1 (Z.lor (TIMSK1 s3) (MASK OCIE1A)) s3).

(** [queue_step()] (dda_queue.c) is called by the step interrupt; its effect
    on the timer is a parameter here. *)
Variable queue_step : timer1 -> timer1.

(** [ISR(TIMER1_COMPA_vect)]. *)
Definition isr_compa (s : timer1) : timer1 :=
  if next_step_time s <? 65536 then
    (* TIMSK1 &= ~MASK(OCIE1A); queue_step(); *)
    queue_step (set_TIMSK1 (Z.land (TIMSK1 s) (Z.lnot (MASK OCIE1A))) s)
  else
    let s1 := set_next_step_time (u32 (next_step_time s - 65536)) s in
    let n := next_step_time s1 in
    if n <? 65536 then
      set_OCR1A (Z.land (u32 (OCR1A s1 + n)) 65535) s1
    else if n <? 75536 then
      set_next_step_time (u32 (n + 10000))
        (set_OCR1A (Z.land (OCR1A s1 - 10000) 65535) s1)
    else s1.

(** Kind of a step compare match: a wrap of [next_step_time] (no step) or a
    real step ([queue_step] called). *)
Inductive fire := WrapFire | StepFire.

(** The counter runs freely; after a compare match at counter value [a],
    with the compare register reprogrammed to [c] before the counter gets
    there, the next match happens [(c - a) mod 65536] ticks later, a full
    counter period when [c = a]. *)
Definition ticks_to (a c : Z) : Z :=
  let d := (c - a) mod 65536 in if d =? 0 then 65536 else d.

(** The sequence of step compare matches after the compare has been
    programmed from the anchor [anchor]: each match with its distance in
    ticks from the previous one; the simulation stops at the real step
    (or after [fuel] matches). *)
Fixpoint compa_fires (fuel : nat) (anchor : Z) (s : timer1) : list (fire * Z) :=
  match fuel with
  | O => []
  | S f =>
      let d := ticks_to anchor (OCR1A s) in
      if next_step_time s <? 65536 then [(StepFire, d)]
      else (WrapFire, d) :: compa_fires f (OCR1A s) (isr_compa s)
  end.

End Timer.


(** Modelled from the spec: [queue_step()] (dda_queue.c, not in src) as
    far as the step timer is concerned.  When no move is live it returns
    idle without scheduling anything (section 5: the step ISR "either
    schedules the next event or returns idle"); otherwise it steps the live
    move and asks for the next interval with [timer_set(delay, 1)], again
    while the answer is TooShort (section 4.2, temporal mode).  [calls] lists
    the delay and the counter value of each of those calls, [[]] when no
    move is live. *)
Fixpoint queue_step_model (acceleration_temporal : bool) (plat : platform)
    (calls : list (Z * Z)) (s : timer1) : timer1 :=
  match calls with
  | [] => s
  | (delay, now) :: rest =>
      queue_step_model acceleration_temporal plat rest
        (snd (timer_set acceleration_temporal plat delay true (set_TCNT1 now s)))
  end.

(** Whether one of those [timer_set] calls scheduled the step (returned 0). *)
Fixpoint rearmed (acceleration_temporal : bool) (plat : platform)
    (calls : list (Z * Z)) (s : timer1) : bool :=
  match calls with
  | [] => false
  | (delay, now) :: rest =>
      let r := timer_set acceleration_temporal plat delay true (set_TCNT1 now s) in
      (fst r =? 0) || rearmed acceleration_temporal plat rest (snd r)
  end.

(* ------------------------------------------------------------------ *)
(** ** Homing (home.c) *)

(** Axes of [axes_int32_t]; the Z axis is named [Zaxis] because [Z] is the
    type of integers here. *)
Inductive axis_t := X | Y | Zaxis | U | E.

Definition axis_t_eqb (i j : axis_t) : bool :=
  match i, j with
  | X, X | Y, Y | Zaxis, Zaxis | U, U | E, E => true
  | _, _ => false
  end.

(** [axes_int32_t]: one [int32_t] per axis, in micrometres. *)
Record axes := mkAxes { ax_X : Z; ax_Y : Z; ax_Z : Z; ax_U : Z; ax_E : Z }.

Definition get_axis (a : axes) (i : axis_t) : Z :=
  match i with
  | X => ax_X a | Y => ax_Y a | Zaxis => ax_Z a | U => ax_U a | E => ax_E a
  end.

Definition set_axis (a : axes) (i : axis_t) (v : Z) : axes :=
  match i with
  | X => mkAxes v (ax_Y a) (ax_Z a) (ax_U a) (ax_E a)
  | Y => mkAxes (ax_X a) v (ax_Z a) (ax_U a) (ax_E a)
  | Zaxis => mkAxes (ax_X a) (ax_Y a) v (ax_U a) (ax_E a)
  | U => mkAxes (ax_X a) (ax_Y a) (ax_Z a) v (ax_E a)
  | E => mkAxes (ax_X a) (ax_Y a) (ax_Z a) (ax_U a) v
  end.

(** [TARGET]: the position and the feedrate [F] (the other fields of the
    struct are copied along and never read by home.c). *)
Record TARGET := mkTarget { axis : axes; F : Z }.

Definition set_target_axis (t : TARGET) (i : axis_t) (v : Z) : TARGET :=
  mkTarget (set_axis (axis t) i v) (F t).
Definition set_F (t : TARGET) (v : Z) : TARGET := mkTarget (axis t) v.

(** Calls of the motion controller made by the homing code, in order. *)
Inductive event :=
  | EnqueueHome (t : TARGET) (endstop_check : Z) (endstop_stop_cond : Z)
  | QueueWait
  | SetStartpoint (i : axis_t) (v : Z)
  | NewStartpoint.

(** Globals read and written by home.c: [startpoint],
    [next_target.target.axis], and the trace of calls made so far. *)
Record home_state := mkHome {
  startpoint : TARGET;
  next_target_axis : axes;
  trace : list event
}.

Definition emit (ev : event) (s : home_state) : home_state :=
  mkHome (startpoint s) (next_target_axis s) (trace s ++ [ev]).

(** Modelled from the spec: [enqueue_home] (dda_queue.c, not in src) pushes
    the move with its endstop mask and stop condition onto the move queue
    (section 4.5, "as above, with endstop_mask stored on the move"); it does
    not write [startpoint]. *)
Definition enqueue_home (t : TARGET) (endstop_check endstop_stop_cond : Z)
    (s : home_state) : home_state :=
  emit (EnqueueHome t endstop_check endstop_stop_cond) s.

(** Modelled from the spec: [queue_wait] (dda_queue.c, not in src) blocks
    until the queue is idle ([wait_idle()] of section 4.5). *)
Definition queue_wait (s : home_state) : home_state := emit QueueWait s.

(** Modelled from the spec: [dda_new_startpoint] (dda.c, not in src)
    notifies the DDA of the new origin (section 4.5, step 4). *)
Definition dda_new_startpoint (s : home_state) : home_state :=
  emit NewStartpoint s.

(** [startpoint.axis[i] = next_target.target.axis[i] = v;] *)
Definition write_home_position (i : axis_t) (v : Z) (s : home_state) : home_state :=
  mkHome (set_target_axis (startpoint s) i v)
         (set_axis (next_target_axis s) i v)
         (trace s ++ [SetStartpoint i v]).

(** Per-axis configuration of config.h: which endstop pins exist, the
    [<AXIS>_MIN] / [<AXIS>_MAX] positions as the compile-time values of
    [(int32_t)(<AXIS>_MIN * 1000.)] (micrometres; [None] when not defined),
    [SEARCH_FEEDRATE_<AXIS>] and the value of [SEARCH_FAST_<AXIS>]. *)
Record axis_config := mkAxisConfig {
  min_pin : bool;
  max_pin : bool;
  min_um : option Z;
  max_um : option Z;
  search_feedrate : Z;
  search_fast : Z
}.

Section Homing.

Variable cfg : axis_t -> axis_config.

(** The search part shared by the eight routines:
<<
    TARGET t = startpoint;
    t.axis[i] = toward;
    if (SEARCH_FAST > SEARCH_FEEDRATE) t.F = SEARCH_FAST;
    else t.F = SEARCH_FEEDRATE;
    enqueue_home(&t, mask, 1);
    if (SEARCH_FAST > SEARCH_FEEDRATE) {
      t.axis[i] = -toward;
      t.F = SEARCH_FEEDRATE;
      enqueue_home(&t, mask, 0);
    }
>> *)
Definition home_search (i : axis_t) (toward mask : Z) (s : home_state) : home_state :=
  let c := cfg i in
  let t := set_target_axis (startpoint s) i toward in
  let t := set_F t (if search_feedrate c <? search_fast c
                    then search_fast c else search_feedrate c) in
  let s := enqueue_home t mask 1 s in
  if search_feedrate c <? search_fast c then
    let t := set_F (set_target_axis t i (- toward)) (search_feedrate c) in
    enqueue_home t mask 0 s
  else s.

(** The final part: [queue_wait(); startpoint.axis[i] = ... = v;
    dda_new_startpoint();] *)
Definition home_set_position (i : axis_t) (v : Z) (s : home_state) : home_state :=
  dda_new_startpoint (write_home_position i v (queue_wait s)).

(** Body of a [home_<axis>_negative] routine ([#if defined <AXIS>_MIN_PIN]). *)
Definition home_negative (i : axis_t) (mask : Z) (s : home_state) : home_state :=
  if min_pin (cfg i) then
    home_set_position i (match min_um (cfg i) with Some v => v | None => 0 end)
      (home_search i (-1000000) mask s)
  else s.

(** Body of a [home_<axis>_positive] routine
    ([#if defined <AXIS>_MAX_PIN && defined <AXIS>_MAX]; with the pin and
    without the position the build stops with [#error]). *)
Definition home_positive (i : axis_t) (mask : Z) (s : home_state) : home_state :=
  match max_pin (cfg i), max_um (cfg i) with
  | true, Some v => home_set_position i v (home_search i 1000000 mask s)
  | _, _ => s
  end.

Definition home_x_negative := home_negative X 1.     (* 0x01 *)
Definition home_x_positive := home_positive X 2.     (* 0x02 *)
Definition home_y_negative := home_negative Y 4.     (* 0x04 *)
Definition home_y_positive := home_positive Y 8.     (* 0x08 *)
Definition home_z_negative := home_negative Zaxis 16.  (* 0x10 *)
Definition home_z_positive := home_positive Zaxis 32.  (* 0x20 *)
Definition home_u_negative := home_negative U 16.    (* 0x10 *)
Definition home_u_positive := home_positive U 32.    (* 0x20 *)

End Homing.

(** Endstop masks passed to [enqueue_home] in a trace. *)
Definition enqueued_masks (tr : list event) : list Z :=
  flat_map (fun ev => match ev with EnqueueHome _ m _ => [m] | _ => [] end) tr.

(** Homing moves (target, mask, stop condition) in a trace. *)
Definition enqueued_moves (tr : list event) : list (TARGET * Z * Z) :=
  flat_map (fun ev => match ev with EnqueueHome t m c => [(t, m, c)] | _ => [] end) tr.

(** Endstop bit of the layout of the spec: bit 0 = X-, 1 = X+, 2 = Y-,
    3 = Y+, 4 = Z-, 5 = Z+, 6 = U-, 7 = U+. *)
Definition axis_index (i : axis_t) : Z :=
  match i with X => 0 | Y => 1 | Zaxis => 2 | U => 3 | E => 4 end.
Definition endstop_bit (i : axis_t) (positive : bool) : Z :=
  MASK (2 * axis_index i + (if positive then 1 else 0)).

(** The event of an [enqueue_home] call. *)
Definition enqueue_event (m : TARGET * Z * Z) : event :=
  let '(t, mask, cond) := m in EnqueueHome t mask cond.

(** The eight homing routines of home.c with their axis, direction
    ([true] for the MAX endstop) and the mask each passes. *)
Definition homing_routines :
    list (((axis_t -> axis_config) -> home_state -> home_state) * axis_t * bool * Z) :=
  [(home_x_negative, X, false, 1); (home_x_positive, X, true, 2);
   (home_y_negative, Y, false, 4); (home_y_positive, Y, true, 8);
   (home_z_negative, Zaxis, false, 16); (home_z_positive, Zaxis, true, 32);
   (home_u_negative, U, false, 16); (home_u_positive, U, true, 32)].

(** Whether the body of a routine is compiled in. *)
Definition routine_enabled (c : axis_config) (positive : bool) : bool :=
  if positive then max_pin c && match max_um c with Some _ => true | None => false end
  else min_pin c.

(** The homing moves of the per-axis sequence of the spec, from the start
    point [sp]: with [SEARCH_FAST > SEARCH_FEEDRATE] a fast move toward the
    endstop stopping on trigger, then a move the other way at
    [SEARCH_FEEDRATE] stopping on release; otherwise one move toward the
    endstop at [SEARCH_FEEDRATE] stopping on trigger. *)
Definition two_pass_moves (c : axis_config) (sp : TARGET) (i : axis_t)
    (toward mask : Z) : list (TARGET * Z * Z) :=
  if search_feedrate c <? search_fast c then
    [(set_F (set_target_axis sp i toward) (search_fast c), mask, 1);
     (set_F (set_target_axis sp i (- toward)) (search_feedrate c), mask, 0)]
  else
    [(set_F (set_target_axis sp i toward) (search_feedrate c), mask, 1)].

(* ------------------------------------------------------------------ *)
(** ** Fast search feedrate *)

(** [SEARCH_FAST_<AXIS>]:
    [(uint32_t)((double)60. * sqrt((double)2 * ACCELERATION *
    ENDSTOP_CLEARANCE / 1000.))], with the double arithmetic read as real
    arithmetic and the conversion of the non-negative result to
    [uint32_t] as truncation. *)
Definition SEARCH_FAST (ACCELERATION ENDSTOP_CLEARANCE : R) : Z :=
  Int_part (60 * sqrt (2 * ACCELERATION * ENDSTOP_CLEARANCE / 1000))%R.

(** Shape of the timer state while [next_step_time] still has wraps to
    go, seen from the anchor [a] (the counter value of the last step compare
    match): [r] ticks remain until the real step.  Either the compare is at
    the anchor (one full period away) and [next_step_time = r], or the guard
    band moved it 10000 ticks back and added 10000 to [next_step_time]. *)
Definition wrap_form (a : Z) (s : timer1) (r : Z) : Prop :=
  (OCR1A s = a /\ next_step_time s = r /\ 75536 <= r < 2 ^ 32) \/
  (OCR1A s = (a - 10000) mod 65536 /\ next_step_time s = r + 10000 /\
   65536 <= r < 75536).

(** A configuration in the spirit of the homing scenario of the spec:
    MIN and MAX endstops on every axis, SEARCH_FEEDRATE 100 mm/min and
    SEARCH_FAST 6000 mm/min. *)
Definition cfg_example (i : axis_t) : axis_config :=
  mkAxisConfig true true (Some (-10000)) (Some 200000) 100 6000.

Definition home_example : home_state :=
  mkHome (mkTarget (mkAxes 1 2 3 4 5) 1200) (mkAxes 1 2 3 4 5) [].

(* ------------------------------------------------------------------ *)
(** ** System clock, initialisation and emergency stop (timer-avr.c) *)

(** Timer 1 registers of the system clock side, the [static volatile
    uint8_t busy] latch of [ISR(TIMER1_COMPB_vect)], and the number of
    calls made so far to [clock_tick()] (clock.c) and [dda_clock()]
    (dda.c), whose bodies are not in src. *)
Record sysclk := mkSysclk {
  TCCR1A : Z;
  TCCR1B : Z;
  OCR1B : Z;              (* uint16_t, system clock compare *)
  busy : bool;
  clock_ticks : nat;
  dda_clocks : nat
}.

Definition set_TCCR1A (v : Z) (c : sysclk) : sysclk :=
  mkSysclk v (TCCR1B c) (OCR1B c) (busy c) (clock_ticks c) (dda_clocks c).
Definition set_TCCR1B (v : Z) (c : sysclk) : sysclk :=
  mkSysclk (TCCR1A c) v (OCR1B c) (busy c) (clock_ticks c) (dda_clocks c).
Definition set_OCR1B (v : Z) (c : sysclk) : sysclk :=
  mkSysclk (TCCR1A c) (TCCR1B c) v (busy c) (clock_ticks c) (dda_clocks c).
Definition set_busy (v : bool) (c : sysclk) : sysclk :=
  mkSysclk (TCCR1A c) (TCCR1B c) (OCR1B c) v (clock_ticks c) (dda_clocks c).

(** The calls of the handler, recorded. *)
Definition clock_tick (c : sysclk) : sysclk :=
  mkSysclk (TCCR1A c) (TCCR1B c) (OCR1B c) (busy c) (S (clock_ticks c)) (dda_clocks c).
Definition dda_clock (c : sysclk) : sysclk :=
  mkSysclk (TCCR1A c) (TCCR1B c) (OCR1B c) (busy c) (clock_ticks c) (S (dda_clocks c)).

(** Bit position of CS10 in TCCR1B. *)
Definition CS10 : Z := 0.

(** [ISR(TIMER1_COMPB_vect)].  After [sei()] further compare B matches may
    interrupt [dda_clock()]; [during_dda_clock] is the effect of those
    nested handler runs on the system clock state. *)
Definition isr_compb (TICK_TIME : Z) (during_dda_clock : sysclk -> sysclk)
    (c : sysclk) : sysclk :=
  let c := set_OCR1B (Z.land (OCR1B c + TICK_TIME) 65535) c in
  let c := clock_tick c in
  if negb (busy c) then
    let c := set_busy true c in
    (* sei(); *)
    let c := during_dda_clock (dda_clock c) in
    set_busy false c
  else c.

(** [k] compare B matches nested in a [dda_clock()] call; the nested
    handler runs do not call [sei()], so nothing nests inside them. *)
Definition nested_ticks (TICK_TIME : Z) (k : nat) : sysclk -> sysclk :=
  Nat.iter k (isr_compb TICK_TIME (fun c => c)).

(** [timer_init()]. *)
Definition timer_init (TICK_TIME : Z) (s : timer1) (c : sysclk) : timer1 * sysclk :=
  (* the SIMULATOR build also calls sim_timer_set() *)
  let c := set_TCCR1A 0 c in
  let c := set_TCCR1B (MASK CS10) c in
  let c := set_OCR1B (Z.land TICK_TIME 65535) c in
  (set_TIMSK1 (MASK OCIE1B) s, c).

(** [timer_stop()]. *)
Definition timer_stop (s : timer1) : timer1 :=
  (* the SIMULATOR build also calls sim_timer_stop() *)
  set_TIMSK1 0 s.

(** Whether the system clock compare interrupt is enabled in TIMSK1. *)
Definition ocie1b_enabled (s : timer1) : bool := Z.testbit (TIMSK1 s) OCIE1B.

(* ------------------------------------------------------------------ *)
(** ** [home()] (home.c) *)

(** [home()]: per axis X, Y, Z, U the negative routine when the MIN pin is
    defined, else the positive routine when the MAX pin is defined. *)
Definition home_axis (cfg : axis_t -> axis_config) (i : axis_t)
    (neg pos : (axis_t -> axis_config) -> home_state -> home_state)
    (s : home_state) : home_state :=
  if min_pin (cfg i) then neg cfg s
  else if max_pin (cfg i) then pos cfg s
  else s.

Definition home (cfg : axis_t -> axis_config) (s : home_state) : home_state :=
  let s := home_axis cfg X home_x_negative home_x_positive s in
  let s := home_axis cfg Y home_y_negative home_y_positive s in
  let s := home_axis cfg Zaxis home_z_negative home_z_positive s in
  home_axis cfg U home_u_negative home_u_positive s.

(** The position an axis has after [home()], given its position [old]
    before. *)
Definition homed_position (c : axis_config) (old : Z) : Z :=
  if min_pin c then match min_um c with Some v => v | None => 0 end
  else if max_pin c then match max_um c with Some v => v | None => old end
  else old.

(* ------------------------------------------------------------------ *)
(** ** I2C master transmitter (the TWI part of the file) *)

(** Bits of [i2c_state]. *)
Definition I2C_MODE_MASK : Z := 12.         (* 0b00001100 *)
Definition I2C_MODE_SARP : Z := 0.
Definition I2C_MODE_SAWP : Z := 4.          (* 0b00000100 *)
Definition I2C_MODE_ENHA : Z := 8.          (* 0b00001000 *)
Definition I2C_MODE_BUSY : Z := 64.         (* 0b01000000 *)
Definition I2C_INTERRUPTED : Z := 128.      (* 0b10000000 *)
Definition I2C_ERROR : Z := 1.              (* 0b00000001 *)

(** Master mode: [I2C_MODE] is 0 ([I2C_SLAVE_MODE], [I2C_READ_SUPPORT] and
    [I2C_EEPROM_SUPPORT] not defined). *)
Definition I2C_MODE : Z := 0.

(** Bit positions of TWCR. *)
Definition TWINT : Z := 7.
Definition TWEA : Z := 6.
Definition TWSTA : Z := 5.
Definition TWSTO : Z := 4.
Definition TWEN : Z := 2.
Definition TWIE : Z := 0.

(** Status codes of util/twi.h ([TWSR & TW_STATUS_MASK]). *)
Definition TW_STATUS_MASK : Z := 248.       (* 0xF8 *)
Definition TW_START : Z := 8.               (* 0x08 *)
Definition TW_REP_START : Z := 16.          (* 0x10 *)
Definition TW_MT_SLA_ACK : Z := 24.         (* 0x18 *)
Definition TW_MT_SLA_NACK : Z := 32.        (* 0x20 *)
Definition TW_MT_DATA_ACK : Z := 40.        (* 0x28 *)
Definition TW_MT_DATA_NACK : Z := 48.       (* 0x30 *)
Definition TW_MT_ARB_LOST : Z := 56.        (* 0x38 *)
Definition TW_BUS_ERROR : Z := 0.           (* 0x00 *)

(** [(twint<<TWINT)|(twea<<TWEA)|(twsta<<TWSTA)|(twsto<<TWSTO)|(twen<<TWEN)|(twie<<TWIE)] *)
Definition twcr_value (twint twea twsta twsto twen twie : Z) : Z :=
  Z.lor (Z.shiftl twint TWINT)
   (Z.lor (Z.shiftl twea TWEA)
    (Z.lor (Z.shiftl twsta TWSTA)
     (Z.lor (Z.shiftl twsto TWSTO)
      (Z.lor (Z.shiftl twen TWEN) (Z.shiftl twie TWIE))))).

(** Globals and TWI registers used by the driver; [sendbuf] is the content
    of the send ring buffer, oldest byte first. *)
Record i2c := mkI2C {
  i2c_address : Z;        (* uint8_t *)
  i2c_state : Z;          (* volatile uint8_t *)
  i2c_should_end : Z;     (* volatile uint8_t *)
  sendbuf : list Z;
  TWCR : Z;
  TWDR : Z;
  TWSR : Z;
  TWBR : Z
}.

Definition set_i2c_address (v : Z) (s : i2c) : i2c :=
  mkI2C v (i2c_state s) (i2c_should_end s) (sendbuf s) (TWCR s) (TWDR s) (TWSR s) (TWBR s).
Definition set_i2c_state (v : Z) (s : i2c) : i2c :=
  mkI2C (i2c_address s) v (i2c_should_end s) (sendbuf s) (TWCR s) (TWDR s) (TWSR s) (TWBR s).
Definition set_i2c_should_end (v : Z) (s : i2c) : i2c :=
  mkI2C (i2c_address s) (i2c_state s) v (sendbuf s) (TWCR s) (TWDR s) (TWSR s) (TWBR s).
Definition set_sendbuf (v : list Z) (s : i2c) : i2c :=
  mkI2C (i2c_address s) (i2c_state s) (i2c_should_end s) v (TWCR s) (TWDR s) (TWSR s) (TWBR s).
Definition set_TWCR (v : Z) (s : i2c) : i2c :=
  mkI2C (i2c_address s) (i2c_state s) (i2c_should_end s) (sendbuf s) v (TWDR s) (TWSR s) (TWBR s).
Definition set_TWDR (v : Z) (s : i2c) : i2c :=
  mkI2C (i2c_address s) (i2c_state s) (i2c_should_end s) (sendbuf s) (TWCR s) v (TWSR s) (TWBR s).
Definition set_TWSR (v : Z) (s : i2c) : i2c :=
  mkI2C (i2c_address s) (i2c_state s) (i2c_should_end s) (sendbuf s) (TWCR s) (TWDR s) v (TWBR s).
Definition set_TWBR (v : Z) (s : i2c) : i2c :=
  mkI2C (i2c_address s) (i2c_state s) (i2c_should_end s) (sendbuf s) (TWCR s) (TWDR s) (TWSR s) v.

Section I2C.

(** Modelled from the spec: the send ring buffer ([ringbuffer.h], not in
    src) is a bounded FIFO, "the same SPSC ring primitive" as the move queue
    (section 5 and the I2C note): [buf_canwrite] holds while fewer than
    [BUF_CAPACITY] bytes are stored, [buf_push] appends, [buf_pop] takes the
    oldest byte. *)
Variable BUF_CAPACITY : nat.

Definition buf_canwrite (b : list Z) : bool := Nat.ltb (length b) BUF_CAPACITY.
Definition buf_canread (b : list Z) : bool :=
  match b with [] => false | _ :: _ => true end.
Definition buf_push (b : list Z) (x : Z) : list Z := b ++ [x].

(** [buf_pop(send, TWDR)] on a readable buffer. *)
Definition pop_to_TWDR (s : i2c) : i2c :=
  match sendbuf s with
  | [] => s
  | x :: r => set_TWDR x (set_sendbuf r s)
  end.

(** [void i2c_init(uint8_t address)] in master mode, the
    [I2C_ENABLE_PULLUPS] pin setup left out.  [None]: the call keeps waiting
    in [while (i2c_state & I2C_MODE_BUSY)], which only the interrupt can end.
    The bit rate divisor is taken for a CPU clock of at least 16 times the
    bit rate, where C's divisions agree with [Z.div]; the 8-bit TWBR keeps
    its low 8 bits. *)
Definition i2c_init (F_CPU I2C_BITRATE : Z) (address : Z) (s : i2c) : option i2c :=
  if negb (Z.land (i2c_state s) I2C_MODE_BUSY =? 0) then None
  else
    let s := set_i2c_address address s in
    let s := set_TWBR ((((F_CPU / I2C_BITRATE) - 16) / 2) mod 256) s in
    Some (set_TWSR 0 s).

(** [uint8_t i2c_busy(void)]. *)
Definition i2c_busy (s : i2c) : Z := Z.land (i2c_state s) I2C_MODE_BUSY.

(** [void i2c_write(uint8_t data, uint8_t last_byte)].  [None]: the call
    keeps waiting in [while (i2c_should_end || ! buf_canwrite(send))],
    which only the interrupt can end. *)
Definition i2c_write (data last_byte : Z) (s : i2c) : option i2c :=
  if negb (Z.land (i2c_state s) I2C_ERROR =? 0) then
    if negb (last_byte =? 0) then
      Some (set_i2c_state (Z.land (i2c_state s) (Z.lnot I2C_ERROR)) s)
    else Some s
  else if negb (i2c_should_end s =? 0) || negb (buf_canwrite (sendbuf s)) then None
  else
    let s :=
      if Z.land (i2c_state s) I2C_MODE_BUSY =? 0 then
        let s := set_i2c_state I2C_MODE_SAWP s in
        let s := set_TWCR (twcr_value 1 0 1 0 1 1) s in
        set_i2c_state (Z.lor (i2c_state s) I2C_MODE_BUSY) s
      else s in
    Some (set_i2c_should_end last_byte (set_sendbuf (buf_push (sendbuf s) data) s)).

(** [ISR(TWI_vect)] in master mode. *)
Definition isr_twi (s : i2c) : i2c :=
  let status := Z.land (TWSR s) TW_STATUS_MASK in
  let mode := Z.land (i2c_state s) I2C_MODE_MASK in
  if status =? TW_START then
    let a := if mode =? I2C_MODE_SARP then Z.lor (i2c_address s) 1
             else Z.land (i2c_address s) 254 in
    let s := set_i2c_address a s in
    set_TWCR (twcr_value 1 I2C_MODE 0 0 1 1) (set_TWDR a s)
  else if status =? TW_REP_START then
    let a := if mode =? I2C_MODE_ENHA then Z.lor (i2c_address s) 1
             else Z.land (i2c_address s) 254 in
    let s := set_i2c_address a s in
    set_TWCR (twcr_value 1 I2C_MODE 0 0 1 1) (set_TWDR a s)
  else if status =? TW_MT_SLA_ACK then
    if (mode =? I2C_MODE_SAWP) && buf_canread (sendbuf s) then
      set_TWCR (twcr_value 1 I2C_MODE 0 0 1 1) (pop_to_TWDR s)
    else s
  else if status =? TW_MT_DATA_ACK then
    if mode =? I2C_MODE_SAWP then
      if buf_canread (sendbuf s) then
        set_TWCR (twcr_value 1 I2C_MODE 0 0 1 1) (pop_to_TWDR s)
      else
        let s := set_i2c_state 0 s in
        let s := set_i2c_should_end 0 s in
        set_TWCR (twcr_value 1 I2C_MODE 0 1 1 0) s
    else s
  else if (status =? TW_BUS_ERROR) || (status =? TW_MT_SLA_NACK)
          || (status =? TW_MT_DATA_NACK) || (status =? TW_MT_ARB_LOST) then
    let s := set_i2c_state (Z.lor (i2c_state s) (Z.lor I2C_ERROR I2C_INTERRUPTED)) s in
    let s := set_i2c_should_end 0 s in
    (* while (buf_canread(send)) buf_pop(send, TWDR); *)
    let s := fold_left (fun s _ => pop_to_TWDR s) (sendbuf s) s in
    set_TWCR (twcr_value 1 I2C_MODE 0 1 1 0) s
  else s.

End I2C.

(** A transmission as the display code sends it: [i2c_write] for each byte,
    [last_byte] set on the last one. *)
Fixpoint i2c_send (cap : nat) (bs : list Z) (s : i2c) : option i2c :=
  match bs with
  | [] => Some s
  | [b] => i2c_write cap b 1 s
  | b :: rest =>
      match i2c_write cap b 0 s with
      | Some s' => i2c_send cap rest s'
      | None => None
      end
  end.

(** The TWI hardware reporting the statuses [sts] one after the other, the
    interrupt running on each; returns the value of TWDR after each run (the
    byte the hardware shifts out next) and the final state. *)
Fixpoint twi_run (sts : list Z) (s : i2c) : list Z * i2c :=
  match sts with
  | [] => ([], s)
  | st :: rest =>
      let s' := isr_twi (set_TWSR st s) in
      let '(out, s'') := twi_run rest s' in
      (TWDR s' :: out, s'')
  end.

(* ================================================================== *)
(** * Properties *)

Definition timer_at (ocr tcnt : Z) : timer1 := mkTimer1 ocr tcnt (MASK OCIE1B) 0 true.

Example ex_large : compa_fires (fun s => s) 10 (OCR1A (timer_at 5 100))
  (snd (timer_set false AVR (3 * 65536 + 1234) false (timer_at 5 100)))
  = [(WrapFire, 65536); (WrapFire, 65536); (WrapFire, 55536); (StepFire, 11234)].
Proof. reflexivity. Qed.

(** [lia] after turning divisions and remainders by constants into
    equations. *)
Ltac zlia := Z.div_mod_to_equations; lia.

Lemma land_ffff (x : Z) : Z.land x 65535 = x mod 65536.
Proof. change 65535 with (Z.ones 16). rewrite Z.land_ones by lia. reflexivity. Qed.

Lemma land_u32 (x : Z) : Z.land (u32 x) 65535 = x mod 65536.
Proof. rewrite land_ffff. unfold u32. zlia. Qed.

Lemma u32_small (x : Z) : 0 <= x < 2 ^ 32 -> u32 x = x.
Proof. intros H. unfold u32. apply Z.mod_small. exact H. Qed.

Lemma ticks_to_add (a n : Z) : 0 < n < 65536 -> ticks_to a ((a + n) mod 65536) = n.
Proof.
  intros Hn. unfold ticks_to.
  rewrite Zminus_mod_idemp_l. replace (a + n - a) with n by lia.
  rewrite Z.mod_small by lia.
  destruct (Z.eqb_spec n 0); lia.
Qed.

Lemma ticks_to_same (a : Z) : ticks_to a a = 65536.
Proof. unfold ticks_to. rewrite Z.sub_diag. reflexivity. Qed.

Lemma ticks_to_back (a : Z) : ticks_to a ((a - 10000) mod 65536) = 55536.
Proof.
  unfold ticks_to. rewrite Zminus_mod_idemp_l.
  replace (a - 10000 - a) with (-10000) by lia. reflexivity.
Qed.

Lemma mod_range (x : Z) : 0 <= x mod 65536 < 65536.
Proof. apply Z.mod_pos_bound. lia. Qed.

(** Once [next_step_time] is below one period and the compare sits that far
    after the anchor, the next match is the real step. *)
Lemma compa_fires_last (qs : timer1 -> timer1) (f : nat) (a n : Z) (s : timer1) :
  0 < n < 65536 -> OCR1A s = (a + n) mod 65536 -> next_step_time s = n ->
  compa_fires qs (S f) a s = [(StepFire, n)].
Proof.
  intros Hn Ho Hs. cbn [compa_fires]. rewrite Hs, Ho.
  destruct (Z.ltb_spec n 65536); [|lia].
  rewrite ticks_to_add by lia. reflexivity.
Qed.

Definition sumZ (l : list Z) : Z := fold_right Z.add 0 l.

(** The chain of wrap matches: from a [wrap_form] state with [r] ticks to
    go, the matches are [r / 65536] wraps followed by the real step, their
    distances add up to [r] and none is shorter than 10000 ticks. *)
Lemma compa_fires_wrap (qs : timer1 -> timer1) (fuel : nat) :
  forall (a : Z) (s : timer1) (r : Z),
  0 <= a < 65536 -> wrap_form a s r -> (Z.to_nat (r / 65536) < fuel)%nat ->
  exists ds dl,
    compa_fires qs fuel a s = map (fun d => (WrapFire, d)) ds ++ [(StepFire, dl)] /\
    length ds = Z.to_nat (r / 65536) /\
    sumZ (ds ++ [dl]) = r /\
    Forall (fun d => 10000 <= d) (ds ++ [dl]).
Proof.
  induction fuel as [|f IH]; intros a s r Ha Hw Hf; [zlia|].
  destruct Hw as [(Ho & Hs & Hr) | (Ho & Hs & Hr)].
  - (* compare at the anchor: one full period *)
    cbn [compa_fires]. rewrite Hs, Ho.
    destruct (Z.ltb_spec r 65536); [zlia|].
    rewrite ticks_to_same.
    unfold isr_compa. rewrite Hs.
    destruct (Z.ltb_spec r 65536); [zlia|].
    cbn [next_step_time set_next_step_time OCR1A].
    rewrite (u32_small (r - 65536)) by zlia.
    rewrite Ho.
    destruct (Z.ltb_spec (r - 65536) 65536) as [Hn|Hn].
    + destruct f as [|f'];
        [ assert (r / 65536 = 1) as H1 by zlia; rewrite H1 in Hf; cbn in Hf; zlia |].
      rewrite (compa_fires_last qs f' a (r - 65536)); try zlia.
      * exists [65536], (r - 65536). split; [|split; [|split]].
        -- reflexivity.
        -- cbn. replace (r / 65536) with 1 by zlia. reflexivity.
        -- unfold sumZ; cbn [fold_right app]; zlia.
        -- repeat constructor; zlia.
      * cbn. rewrite u32_small by zlia. rewrite land_ffff. reflexivity.
      * reflexivity.
    + destruct (Z.ltb_spec (r - 65536) 75536) as [Hg|Hg].
      * (* guard band *)
        destruct (IH a
          (set_next_step_time (u32 (r - 65536 + 10000))
             (set_OCR1A (Z.land (a - 10000) 65535)
                (set_next_step_time (r - 65536) s))) (r - 65536))
          as (ds & dl & Hl & Hlen & Hsum & Hall); auto.
        -- right. cbn. rewrite land_ffff, u32_small by zlia. zlia.
        -- assert (r / 65536 = Z.succ ((r - 65536) / 65536)) as Hq by zlia.
           rewrite Hq, Z2Nat.inj_succ in Hf by zlia. zlia.
        -- exists (65536 :: ds), dl. split; [|split; [|split]].
           ++ cbn. rewrite Hl. reflexivity.
           ++ cbn. rewrite Hlen.
              assert (r / 65536 = Z.succ ((r - 65536) / 65536)) as Hq by zlia.
              rewrite Hq, Z2Nat.inj_succ by zlia. reflexivity.
           ++ unfold sumZ in *; cbn [fold_right app]; zlia.
           ++ constructor; [zlia | exact Hall].
      * (* still far away: compare left at the anchor *)
        destruct (IH a (set_next_step_time (r - 65536) s) (r - 65536))
          as (ds & dl & Hl & Hlen & Hsum & Hall); auto.
        -- left. cbn. zlia.
        -- assert (r / 65536 = Z.succ ((r - 65536) / 65536)) as Hq by zlia.
           rewrite Hq, Z2Nat.inj_succ in Hf by zlia. zlia.
        -- exists (65536 :: ds), dl. split; [|split; [|split]].
           ++ cbn. rewrite Hl. reflexivity.
           ++ cbn. rewrite Hlen.
              assert (r / 65536 = Z.succ ((r - 65536) / 65536)) as Hq by zlia.
              rewrite Hq, Z2Nat.inj_succ by zlia. reflexivity.
           ++ unfold sumZ in *; cbn [fold_right app]; zlia.
           ++ constructor; [zlia | exact Hall].
  - (* compare moved back by the guard band *)
    cbn [compa_fires]. rewrite Hs, Ho.
    destruct (Z.ltb_spec (r + 10000) 65536); [zlia|].
    rewrite ticks_to_back.
    destruct f as [|f'];
      [ assert (r / 65536 = 1) as H1 by zlia; rewrite H1 in Hf; cbn in Hf; zlia |].
    unfold isr_compa. rewrite Hs.
    destruct (Z.ltb_spec (r + 10000) 65536); [zlia|].
    cbn [next_step_time set_next_step_time OCR1A].
    rewrite (u32_small (r + 10000 - 65536)) by zlia.
    destruct (Z.ltb_spec (r + 10000 - 65536) 65536); [|zlia].
    rewrite (compa_fires_last qs f' ((a - 10000) mod 65536) (r + 10000 - 65536)).
    + exists [55536], (r + 10000 - 65536). split; [|split; [|split]].
      * reflexivity.
      * cbn. replace (r / 65536) with 1 by zlia. reflexivity.
      * unfold sumZ; cbn [fold_right app]; zlia.
      * repeat constructor; zlia.
    + zlia.
    + cbn. rewrite Ho, u32_small, land_ffff; [reflexivity|].
      pose proof (mod_range (a - 10000)). zlia.
    + reflexivity.
Qed.

(** [timer_set] without the short check programs the compare for a delay
    of at least one period in [wrap_form]. *)
Lemma timer_set_large (temporal : bool) (plat : platform) (delay : Z) (s : timer1) :
  65536 <= delay < 2 ^ 31 -> 0 <= OCR1A s < 65536 ->
  fst (timer_set temporal plat delay false s) = 0 /\
  wrap_form (OCR1A s) (snd (timer_set temporal plat delay false s)) delay.
Proof.
  intros Hd Ha. unfold timer_set. rewrite andb_false_r.
  cbn [next_step_time set_next_step_time set_sreg_I OCR1A].
  rewrite (u32_small delay) by zlia.
  destruct (Z.ltb_spec delay 65536); [zlia|].
  destruct (Z.ltb_spec delay 75536).
  - split; [reflexivity|]. right. cbn.
    rewrite land_ffff, u32_small by zlia. zlia.
  - split; [reflexivity|]. left. cbn. zlia.
Qed.

(** Whatever [check_short], a call that schedules the step (returns 0) with
    a delay of at least one period leaves the same wrap state. *)
Lemma timer_set_large_scheduled (temporal : bool) (plat : platform) (delay : Z)
    (check_short : bool) (s : timer1) :
  65536 <= delay < 2 ^ 31 -> 0 <= OCR1A s < 65536 ->
  fst (timer_set temporal plat delay check_short s) = 0 ->
  wrap_form (OCR1A s) (snd (timer_set temporal plat delay check_short s)) delay.
Proof.
  intros Hd Ha. unfold timer_set.
  destruct (temporal && check_short && _); [intros H; discriminate H|intros _].
  cbn [next_step_time set_next_step_time set_sreg_I OCR1A].
  rewrite (u32_small delay) by zlia.
  destruct (Z.ltb_spec delay 65536); [zlia|].
  destruct (Z.ltb_spec delay 75536).
  - right. cbn. rewrite land_ffff, u32_small by zlia. zlia.
  - left. cbn. zlia.
Qed.


(** [timer_set] scheduling a delay below one period. *)
Lemma timer_set_small (temporal : bool) (plat : platform) (delay : Z)
    (check_short : bool) (s : timer1) :
  0 <= delay < 65536 -> 0 <= OCR1A s < 65536 ->
  fst (timer_set temporal plat delay check_short s) = 0 ->
  OCR1A (snd (timer_set temporal plat delay check_short s)) = (OCR1A s + delay) mod 65536 /\
  next_step_time (snd (timer_set temporal plat delay check_short s)) = delay /\
  TIMSK1 (snd (timer_set temporal plat delay check_short s)) = Z.lor (TIMSK1 s) (MASK OCIE1A).
Proof.
  intros Hd Ha. unfold timer_set.
  destruct (temporal && check_short && _); [discriminate|intros _].
  cbn [next_step_time set_next_step_time set_sreg_I OCR1A].
  rewrite (u32_small delay) by zlia.
  destruct (Z.ltb_spec delay 65536); [|zlia].
  cbn. rewrite land_ffff, u32_small by zlia.
  split; [f_equal; ring | split; reflexivity].
Qed.

(** The real-step branch of the step interrupt. *)
Lemma isr_compa_step (qs : timer1 -> timer1) (s : timer1) :
  next_step_time s < 65536 ->
  isr_compa qs s = qs (set_TIMSK1 (Z.land (TIMSK1 s) (Z.lnot (MASK OCIE1A))) s).
Proof.
  intros H. unfold isr_compa. destruct (Z.ltb_spec (next_step_time s) 65536); [reflexivity|lia].
Qed.

Lemma ocie1a_cleared (s : timer1) :
  ocie1a_enabled (set_TIMSK1 (Z.land (TIMSK1 s) (Z.lnot (MASK OCIE1A))) s) = false.
Proof.
  unfold ocie1a_enabled. cbn [TIMSK1 set_TIMSK1].
  rewrite Z.land_spec, Z.lnot_spec by (unfold OCIE1A; lia).
  change (Z.testbit (MASK OCIE1A) OCIE1A) with true.
  apply andb_false_r.
Qed.

Lemma ocie1a_set (s : timer1) (x : Z) :
  ocie1a_enabled (set_TIMSK1 (Z.lor x (MASK OCIE1A)) s) = true.
Proof.
  unfold ocie1a_enabled. cbn [TIMSK1 set_TIMSK1].
  rewrite Z.lor_spec. change (Z.testbit (MASK OCIE1A) OCIE1A) with true.
  apply orb_true_r.
Qed.

(** [timer_set] either returns 1 leaving TIMSK1 alone, or returns 0 with the
    step compare interrupt enabled. *)
Lemma timer_set_timsk (temporal : bool) (plat : platform) (delay : Z)
    (check_short : bool) (s : timer1) :
  (fst (timer_set temporal plat delay check_short s) = 1 /\
   TIMSK1 (snd (timer_set temporal plat delay check_short s)) = TIMSK1 s) \/
  (fst (timer_set temporal plat delay check_short s) = 0 /\
   ocie1a_enabled (snd (timer_set temporal plat delay check_short s)) = true).
Proof.
  unfold timer_set.
  destruct (temporal && check_short && _).
  - left. split; reflexivity.
  - right. split; [reflexivity|]. apply ocie1a_set.
Qed.

Lemma queue_step_model_ocie1a (temporal : bool) (plat : platform) (calls : list (Z * Z)) :
  forall s, ocie1a_enabled (queue_step_model temporal plat calls s) =
            ocie1a_enabled s || rearmed temporal plat calls s.
Proof.
  induction calls as [|[d now] rest IH]; intros s; cbn [queue_step_model rearmed].
  - rewrite orb_false_r. reflexivity.
  - rewrite IH.
    destruct (timer_set_timsk temporal plat d true (set_TCNT1 now s))
      as [[H1 H2] | [H1 H2]]; rewrite H1.
    + unfold ocie1a_enabled. rewrite H2. reflexivity.
    + rewrite H2. destruct (ocie1a_enabled s); reflexivity.
Qed.

(** The wrap branch of the step interrupt: [queue_step] is not called,
    [next_step_time] loses one period and, in the guard band, the compare
    moves 10000 ticks back while [next_step_time] gets them added. *)
Lemma isr_compa_wrap (qs qs' : timer1 -> timer1) (s : timer1) :
  65536 <= next_step_time s < 2 ^ 32 ->
  isr_compa qs s = isr_compa qs' s /\
  (next_step_time s - 65536 < 65536 ->
     next_step_time (isr_compa qs s) = next_step_time s - 65536 /\
     OCR1A (isr_compa qs s) = (OCR1A s + (next_step_time s - 65536)) mod 65536) /\
  (65536 <= next_step_time s - 65536 < 75536 ->
     next_step_time (isr_compa qs s) = next_step_time s - 65536 + 10000 /\
     OCR1A (isr_compa qs s) = (OCR1A s - 10000) mod 65536) /\
  (75536 <= next_step_time s - 65536 ->
     next_step_time (isr_compa qs s) = next_step_time s - 65536 /\
     OCR1A (isr_compa qs s) = OCR1A s).
Proof.
  intros H. unfold isr_compa.
  destruct (Z.ltb_spec (next_step_time s) 65536); [lia|].
  cbn [next_step_time set_next_step_time OCR1A set_OCR1A].
  rewrite (u32_small (next_step_time s - 65536)) by lia.
  split; [reflexivity|].
  destruct (Z.ltb_spec (next_step_time s - 65536) 65536);
    [|destruct (Z.ltb_spec (next_step_time s - 65536) 75536)];
    cbn [next_step_time set_next_step_time OCR1A set_OCR1A];
    repeat split; intros; rewrite ?land_u32, ?land_ffff;
    rewrite ?u32_small by lia; try reflexivity; lia.
Qed.

(** ** C1: large-delay wrap *)

(** C1 (amended).  After [timer_set(delay, 0)] with [delay] of at least
    COUNTER_RANGE, every step compare match with [next_step_time >= 65536]
    calls no [queue_step] (the handler does not depend on it) and takes one
    period off [next_step_time]; with the remainder below 65536 it programs
    the compare that far after the current one, in the guard band
    [65536, 75536) it moves the compare 10000 back and adds 10000 to
    [next_step_time], above it leaves the compare alone; the first match with
    [next_step_time < 65536] calls [queue_step].  There are exactly
    [delay / 65536] wrap matches before the real step, so three for
    [3 * COUNTER_RANGE + 1234]. *)
Theorem large_delay_wrap (temporal : bool) (plat : platform) (qs : timer1 -> timer1)
    (s : timer1) (delay : Z) (fuel : nat) :
  0 <= OCR1A s < 65536 -> 65536 <= delay < 2 ^ 31 ->
  (Z.to_nat (delay / 65536) < fuel)%nat ->
  fst (timer_set temporal plat delay false s) = 0 /\
  (exists ds dl,
     compa_fires qs fuel (OCR1A s) (snd (timer_set temporal plat delay false s))
       = map (fun d => (WrapFire, d)) ds ++ [(StepFire, dl)] /\
     length ds = Z.to_nat (delay / 65536)) /\
  (forall (qs' : timer1 -> timer1) (s' : timer1),
     65536 <= next_step_time s' < 2 ^ 32 ->
     isr_compa qs s' = isr_compa qs' s' /\
     (next_step_time s' - 65536 < 65536 ->
        next_step_time (isr_compa qs s') = next_step_time s' - 65536 /\
        OCR1A (isr_compa qs s') = (OCR1A s' + (next_step_time s' - 65536)) mod 65536) /\
     (65536 <= next_step_time s' - 65536 < 75536 ->
        next_step_time (isr_compa qs s') = next_step_time s' - 65536 + 10000 /\
        OCR1A (isr_compa qs s') = (OCR1A s' - 10000) mod 65536) /\
     (75536 <= next_step_time s' - 65536 ->
        next_step_time (isr_compa qs s') = next_step_time s' - 65536 /\
        OCR1A (isr_compa qs s') = OCR1A s')) /\
  (forall s' : timer1, next_step_time s' < 65536 ->
     isr_compa qs s' = qs (set_TIMSK1 (Z.land (TIMSK1 s') (Z.lnot (MASK OCIE1A))) s')) /\
  (forall s' : timer1, 0 <= OCR1A s' < 65536 ->
     map fst (compa_fires qs 4 (OCR1A s')
                (snd (timer_set temporal plat (3 * 65536 + 1234) false s')))
       = [WrapFire; WrapFire; WrapFire; StepFire]).
Proof.
  intros Ha Hd Hf.
  destruct (timer_set_large temporal plat delay s Hd Ha) as [H0 Hw].
  split; [exact H0|]. split.
  { destruct (compa_fires_wrap qs fuel (OCR1A s) _ delay Ha Hw Hf)
      as (ds & dl & Hl & Hlen & _ & _).
    exists ds, dl. split; assumption. }
  split.
  { intros qs' s' Hs'. exact (isr_compa_wrap qs qs' s' Hs'). }
  split.
  { intros s' Hs'. apply isr_compa_step. exact Hs'. }
  intros s' Ha'.
  assert (Hd' : 65536 <= 3 * 65536 + 1234 < 2 ^ 31) by lia.
  destruct (timer_set_large temporal plat _ s' Hd' Ha') as [_ Hw'].
  destruct (compa_fires_wrap qs 4 (OCR1A s') _ _ Ha' Hw') as (ds & dl & Hl & Hlen & _ & _).
  { vm_compute. lia. }
  rewrite Hl, map_app, map_map. cbn [fst map].
  vm_compute in Hlen.
  destruct ds as [|d1 [|d2 [|d3 [|d4 ds]]]]; try discriminate. reflexivity.
Qed.

(** C1 counterexample: a wrap match does not always just take 65536 off
    [next_step_time]: for a delay of [2 * 65536 + 5] the first wrap leaves
    [65541] in the guard band and the handler stores [75541]. *)
Lemma large_delay_wrap_guard_adds :
  let s1 := snd (timer_set false AVR (2 * 65536 + 5) false (timer_at 0 0)) in
  65536 <= next_step_time s1 /\
  next_step_time (isr_compa (fun s => s) s1) = 75541 /\
  next_step_time (isr_compa (fun s => s) s1) <> next_step_time s1 - 65536.
Proof. vm_compute. split; [discriminate | split; [reflexivity | discriminate]]. Qed.

(** ** C2: guard band *)

(** C2.  The guard band, in [timer_set] (whenever it schedules the step:
    always with [check_short = 0], and with [check_short = 1] when the
    short check passes) and in the wrap branch of the step interrupt, moves
    the compare 10000 ticks back (modulo 65536) and adds 10000 to
    [next_step_time]; for every scheduled delay of at least one period the
    distances between the matches from the anchor up to the real step add up
    to the requested delay, and each of them is at least 10000 ticks. *)
Theorem guard_band_total_delay (temporal : bool) (plat : platform)
    (qs : timer1 -> timer1) (s : timer1) (delay : Z) (check_short : bool) (fuel : nat) :
  0 <= OCR1A s < 65536 -> 65536 <= delay < 2 ^ 31 ->
  (Z.to_nat (delay / 65536) < fuel)%nat ->
  (check_short = false -> fst (timer_set temporal plat delay check_short s) = 0) /\
  (fst (timer_set temporal plat delay check_short s) = 0 -> delay < 75536 ->
     OCR1A (snd (timer_set temporal plat delay check_short s)) =
       (OCR1A s - 10000) mod 65536 /\
     next_step_time (snd (timer_set temporal plat delay check_short s)) = delay + 10000) /\
  (forall s' : timer1,
     65536 <= next_step_time s' - 65536 < 75536 -> next_step_time s' < 2 ^ 32 ->
     OCR1A (isr_compa qs s') = (OCR1A s' - 10000) mod 65536 /\
     next_step_time (isr_compa qs s') = next_step_time s' - 65536 + 10000) /\
  (fst (timer_set temporal plat delay check_short s) = 0 ->
   exists ds dl,
     compa_fires qs fuel (OCR1A s) (snd (timer_set temporal plat delay check_short s))
       = map (fun d => (WrapFire, d)) ds ++ [(StepFire, dl)] /\
     sumZ (ds ++ [dl]) = delay /\
     Forall (fun d => 10000 <= d) (ds ++ [dl])).
Proof.
  intros Ha Hd Hf.
  split.
  { intros ->. exact (proj1 (timer_set_large temporal plat delay s Hd Ha)). }
  split.
  { intros H0 Hlt.
    destruct (timer_set_large_scheduled temporal plat delay check_short s Hd Ha H0)
      as [(_ & _ & Hr) | (Ho & Hs & _)]; [lia|].
    split; assumption. }
  split.
  { intros s' Hn Hb.
    destruct (isr_compa_wrap qs qs s') as (_ & _ & H2 & _); [lia|].
    destruct (H2 Hn) as [H2a H2b]. split; assumption. }
  intros H0.
  pose proof (timer_set_large_scheduled temporal plat delay check_short s Hd Ha H0) as Hw.
  destruct (compa_fires_wrap qs fuel (OCR1A s) _ delay Ha Hw Hf)
    as (ds & dl & Hl & _ & Hsum & Hall).
  exists ds, dl. split; [exact Hl | split; assumption].
Qed.

(** ** C3: scheduler anchor *)



(** ** C4: short-request check *)

(** On AVR the short-request test agrees with
    [(TCNT1 - OCR1A) mod 65536 + 200 > delay] as long as the 16-bit elapsed
    time stays below [65536 - 200]. *)
Lemma short_request_avr_small (current_time step_start delay : Z) :
  (current_time - step_start) mod 65536 < 65336 ->
  short_request AVR current_time step_start delay =
  (delay <? (current_time - step_start) mod 65536 + 200).
Proof.
  intros H. unfold short_request, u16.
  change (2 ^ 16) with 65536.
  rewrite (Z.mod_small (_ mod 65536 + 200)); [reflexivity|].
  pose proof (mod_range (current_time - step_start)). lia.
Qed.

(** C4 (code bug).  The test [(current_time - step_start) + 200 > delay] is
    evaluated in 16-bit [unsigned int] on AVR, where [+ 200] wraps: 65400
    ticks after the anchor 0, a delay of 1000 is not reported TooShort
    although [65400 + 200 > 1000]; the compare is set to 1000, already
    passed.  On the host build the operands are promoted to [int] and the
    difference is not taken modulo 65536: 5 ticks into the next period after
    the anchor 65000 (16-bit difference 541), a delay of 500 is not reported
    TooShort although [541 + 200 > 500]. *)
Theorem short_check_counter_wrap :
  let r := timer_set true AVR 1000 true (timer_at 0 65400) in
  (65400 - 0) mod 65536 + 200 > 1000 /\ fst r = 0 /\ OCR1A (snd r) = 1000 /\
  let r' := timer_set true Host 500 true (timer_at 65000 5) in
  (5 - 65000) mod 65536 + 200 > 500 /\ fst r' = 0.
Proof. vm_compute. repeat split; discriminate || reflexivity. Qed.

(** ** C9: state left by a TooShort return *)

(** C9.  When [timer_set] returns TooShort (1) — which happens only with
    ACCELERATION_TEMPORAL and [check_short = 1] — global interrupts are left
    disabled, [next_step_time] already holds the requested delay (as
    [uint32_t]), and TIMSK1 (so the step compare enable) and OCR1A are as
    before the call. *)
Theorem too_short_leaves_state (temporal : bool) (plat : platform) (delay : Z)
    (check_short : bool) (s : timer1) :
  fst (timer_set temporal plat delay check_short s) = 1 ->
  temporal = true /\ check_short = true /\
  sreg_I (snd (timer_set temporal plat delay check_short s)) = false /\
  next_step_time (snd (timer_set temporal plat delay check_short s)) = u32 delay /\
  TIMSK1 (snd (timer_set temporal plat delay check_short s)) = TIMSK1 s /\
  OCR1A (snd (timer_set temporal plat delay check_short s)) = OCR1A s.
Proof.
  unfold timer_set.
  destruct temporal, check_short; cbn [andb];
    try (intros H; discriminate H).
  destruct (short_request _ _ _ _); [|intros H; discriminate H].
  intros _. repeat split.
Qed.

(** ** C10: the real step disarms the step compare *)

(** C10.  On a real step the step interrupt clears OCIE1A before calling
    [queue_step], and touches neither OCR1A nor [next_step_time]; so after
    the interrupt the step compare is enabled exactly when one of the
    [timer_set] calls made by [queue_step] scheduled a step, and it stays
    disabled when no move is live ([queue_step] makes no call). *)
Theorem step_isr_disarms :
  (forall (qs : timer1 -> timer1) (s : timer1),
     next_step_time s < 65536 ->
     exists s', isr_compa qs s = qs s' /\ ocie1a_enabled s' = false /\
                OCR1A s' = OCR1A s /\ next_step_time s' = next_step_time s) /\
  (forall (temporal : bool) (plat : platform) (calls : list (Z * Z)) (s : timer1),
     next_step_time s < 65536 ->
     ocie1a_enabled (isr_compa (queue_step_model temporal plat calls) s) =
     rearmed temporal plat calls
       (set_TIMSK1 (Z.land (TIMSK1 s) (Z.lnot (MASK OCIE1A))) s)) /\
  (forall (temporal : bool) (plat : platform) (s : timer1),
     next_step_time s < 65536 ->
     ocie1a_enabled (isr_compa (queue_step_model temporal plat []) s) = false).
Proof.
  split; [|split].
  - intros qs s H. rewrite isr_compa_step by exact H.
    eexists. split; [reflexivity|]. split; [apply ocie1a_cleared|].
    split; reflexivity.
  - intros temporal plat calls s H. rewrite isr_compa_step by exact H.
    rewrite queue_step_model_ocie1a, ocie1a_cleared. reflexivity.
  - intros temporal plat s H. rewrite isr_compa_step by exact H.
    cbn [queue_step_model]. apply ocie1a_cleared.
Qed.

(** ** Homing *)

Lemma get_set_axis (a : axes) (i j : axis_t) (v : Z) :
  get_axis (set_axis a i v) j = if axis_t_eqb i j then v else get_axis a j.
Proof. destruct i, j; reflexivity. Qed.

Lemma set_axis_twice (a : axes) (i : axis_t) (v w : Z) :
  set_axis (set_axis a i v) i w = set_axis a i w.
Proof. destruct i; reflexivity. Qed.

Lemma axis_t_eqb_neq (i j : axis_t) : j <> i -> axis_t_eqb i j = false.
Proof. destruct i, j; cbn; congruence. Qed.

Lemma enqueued_moves_app (tr tr' : list event) :
  enqueued_moves (tr ++ tr') = enqueued_moves tr ++ enqueued_moves tr'.
Proof. unfold enqueued_moves. apply flat_map_app. Qed.

Lemma enqueued_moves_events (ms : list (TARGET * Z * Z)) :
  enqueued_moves (map enqueue_event ms) = ms.
Proof.
  induction ms as [|[[t m] c] ms IH]; [reflexivity|].
  cbn. f_equal. exact IH.
Qed.

Lemma home_search_effect (cfg : axis_t -> axis_config) (i : axis_t) (toward mask : Z)
    (s : home_state) :
  startpoint (home_search cfg i toward mask s) = startpoint s /\
  next_target_axis (home_search cfg i toward mask s) = next_target_axis s /\
  trace (home_search cfg i toward mask s) =
  trace s ++ map enqueue_event (two_pass_moves (cfg i) (startpoint s) i toward mask).
Proof.
  unfold home_search, two_pass_moves, enqueue_home, emit.
  destruct (search_feedrate (cfg i) <? search_fast (cfg i)); cbn.
  - rewrite <- app_assoc. unfold set_target_axis at 2. cbn.
    rewrite set_axis_twice. repeat split.
  - repeat split.
Qed.

Lemma home_set_position_effect (i : axis_t) (v : Z) (s : home_state) :
  startpoint (home_set_position i v s) = set_target_axis (startpoint s) i v /\
  next_target_axis (home_set_position i v s) = set_axis (next_target_axis s) i v /\
  trace (home_set_position i v s) = trace s ++ [QueueWait; SetStartpoint i v; NewStartpoint].
Proof.
  unfold home_set_position, dda_new_startpoint, write_home_position, queue_wait, emit.
  cbn. rewrite <- !app_assoc. repeat split.
Qed.

Lemma home_routine_effect (cfg : axis_t -> axis_config) (i : axis_t) (pos : bool)
    (mask : Z) (s : home_state) :
  routine_enabled (cfg i) pos = true ->
  exists v,
    (if pos then home_positive cfg i mask s else home_negative cfg i mask s) =
    home_set_position i v
      (home_search cfg i (if pos then 1000000 else -1000000) mask s) /\
    v = (if pos then match max_um (cfg i) with Some v => v | None => 0 end
         else match min_um (cfg i) with Some v => v | None => 0 end).
Proof.
  unfold routine_enabled, home_positive, home_negative. destruct pos.
  - destruct (max_pin (cfg i)), (max_um (cfg i)) as [v|]; cbn; try discriminate.
    intros _. exists v. split; reflexivity.
  - intros ->. eexists. split; reflexivity.
Qed.

(** C6.  Every homing routine whose body is compiled in enqueues exactly the
    moves of the two-pass sequence: with [SEARCH_FAST > SEARCH_FEEDRATE] a
    move toward the endstop (axis target -/+ 10^6 um) at [SEARCH_FAST] with
    stop-on-trigger 1, then the opposite move at [SEARCH_FEEDRATE] with 0;
    otherwise one move toward the endstop at [SEARCH_FEEDRATE] with 1. *)
Theorem two_pass_homing (cfg : axis_t -> axis_config) (s : home_state)
    (rt : (axis_t -> axis_config) -> home_state -> home_state)
    (i : axis_t) (pos : bool) (mask : Z) :
  In (rt, i, pos, mask) homing_routines ->
  routine_enabled (cfg i) pos = true ->
  enqueued_moves (trace (rt cfg s)) =
  enqueued_moves (trace s) ++
  two_pass_moves (cfg i) (startpoint s) i (if pos then 1000000 else -1000000) mask.
Proof.
  intros Hin Hen.
  assert (Hrt : rt cfg s = if pos then home_positive cfg i mask s
                           else home_negative cfg i mask s).
  { cbn in Hin.
    repeat (destruct Hin as [Hin|Hin]; [injection Hin as <- <- <- <-; reflexivity|]).
    destruct Hin. }
  rewrite Hrt.
  destruct (home_routine_effect cfg i pos mask s Hen) as (v & -> & _).
  destruct (home_search_effect cfg i (if pos then 1000000 else -1000000) mask s)
    as (Hsp & _ & Htr).
  destruct (home_set_position_effect i v
              (home_search cfg i (if pos then 1000000 else -1000000) mask s))
    as (_ & _ & Htr').
  rewrite Htr', Htr, !enqueued_moves_app, enqueued_moves_events.
  cbn. rewrite app_nil_r. reflexivity.
Qed.

Lemma enqueued_masks_moves (tr : list event) :
  enqueued_masks tr = map (fun m => snd (fst m)) (enqueued_moves tr).
Proof.
  unfold enqueued_masks, enqueued_moves.
  induction tr as [|ev tr IH]; [reflexivity|].
  destruct ev; cbn; rewrite ?IH; reflexivity.
Qed.

Lemma two_pass_masks (c : axis_config) (sp : TARGET) (i : axis_t) (toward mask : Z) :
  map (fun m => snd (fst m)) (two_pass_moves c sp i toward mask) <> [] /\
  Forall (fun m => m = mask) (map (fun m => snd (fst m)) (two_pass_moves c sp i toward mask)).
Proof.
  unfold two_pass_moves. destruct (_ <? _); cbn; split; try discriminate;
    repeat constructor.
Qed.

(** C5 (code bug).  [home_u_negative] and [home_u_positive] pass the Z
    endstop bits: every mask they give [enqueue_home] is 0x10 (Z-) or 0x20
    (Z+), while the layout puts U- at bit 6 (0x40) and U+ at bit 7 (0x80). *)
Theorem home_u_uses_z_endstop_bits (cfg : axis_t -> axis_config) (s : home_state) :
  (min_pin (cfg U) = true ->
   exists ms, enqueued_masks (trace (home_u_negative cfg s)) = enqueued_masks (trace s) ++ ms /\
     ms <> [] /\ Forall (fun m => m = endstop_bit Zaxis false) ms) /\
  (max_pin (cfg U) = true -> max_um (cfg U) <> None ->
   exists ms, enqueued_masks (trace (home_u_positive cfg s)) = enqueued_masks (trace s) ++ ms /\
     ms <> [] /\ Forall (fun m => m = endstop_bit Zaxis true) ms) /\
  endstop_bit Zaxis false = 16 /\ endstop_bit Zaxis true = 32 /\
  endstop_bit U false = 64 /\ endstop_bit U true = 128.
Proof.
  split; [|split; [|repeat split]].
  - intros Hp. rewrite !enqueued_masks_moves.
    rewrite (two_pass_homing cfg s home_u_negative U false 16) by (cbn; tauto).
    rewrite map_app. eexists. split; [reflexivity|]. apply two_pass_masks.
  - intros Hp Hv. rewrite !enqueued_masks_moves.
    rewrite (two_pass_homing cfg s home_u_positive U true 32).
    + rewrite map_app. eexists. split; [reflexivity|]. apply two_pass_masks.
    + cbn. tauto.
    + unfold routine_enabled. rewrite Hp. destruct (max_um (cfg U)); [reflexivity|].
      exfalso. apply Hv. reflexivity.
Qed.

(** C8.  [home_x_negative] (X_MIN_PIN defined) calls [queue_wait()] after
    its homing moves and before writing any position, then sets
    [startpoint.axis[X]] (and [next_target.target.axis[X]]) to the X_MIN
    position in micrometres, 0 without X_MIN, then calls
    [dda_new_startpoint()]; the other axes of [startpoint] keep their
    values. *)
Theorem home_x_negative_origin (cfg : axis_t -> axis_config) (s : home_state) :
  min_pin (cfg X) = true ->
  (exists ms,
     trace (home_x_negative cfg s) =
     trace s ++ map enqueue_event ms ++
       [QueueWait;
        SetStartpoint X (match min_um (cfg X) with Some v => v | None => 0 end);
        NewStartpoint]) /\
  get_axis (axis (startpoint (home_x_negative cfg s))) X =
    (match min_um (cfg X) with Some v => v | None => 0 end) /\
  get_axis (next_target_axis (home_x_negative cfg s)) X =
    (match min_um (cfg X) with Some v => v | None => 0 end) /\
  (forall j, j <> X ->
     get_axis (axis (startpoint (home_x_negative cfg s))) j =
     get_axis (axis (startpoint s)) j).
Proof.
  intros Hp.
  destruct (home_routine_effect cfg X false 1 s Hp) as (v & Hrt & Hv).
  change (home_x_negative cfg s) with (home_negative cfg X 1 s). cbn in Hrt.
  rewrite Hrt. rewrite Hv.
  destruct (home_search_effect cfg X (-1000000) 1 s) as (Hsp & Hnt & Htr).
  set (v0 := match min_um (cfg X) with Some v => v | None => 0 end).
  destruct (home_set_position_effect X v0 (home_search cfg X (-1000000) 1 s))
    as (Hsp' & Hnt' & Htr').
  rewrite Hsp', Hnt', Htr', Hsp, Hnt, Htr.
  split; [|split; [|split]].
  - eexists. rewrite <- app_assoc. reflexivity.
  - unfold set_target_axis. cbn [axis]. rewrite get_set_axis. reflexivity.
  - rewrite get_set_axis. reflexivity.
  - intros j Hj. unfold set_target_axis. cbn [axis].
    rewrite get_set_axis, axis_t_eqb_neq by exact Hj. reflexivity.
Qed.

(** ** Fast search feedrate *)

Lemma Int_part_spec (r : R) (z : Z) : (IZR z <= r < IZR z + 1)%R -> Int_part r = z.
Proof.
  intros [H1 H2]. unfold Int_part.
  rewrite <- (up_tech r z H1); [lia|].
  rewrite plus_IZR. exact H2.
Qed.

(** With clearance 5000 um (5 mm): [60 * sqrt 10000 = 6000]. *)
Lemma search_fast_5mm : SEARCH_FAST 1000 5000 = 6000.
Proof.
  unfold SEARCH_FAST, Rdiv.
  replace (2 * 1000 * 5000 * / 1000)%R with (100 * 100)%R by field.
  rewrite sqrt_square by lra.
  apply Int_part_spec. lra.
Qed.

(** With the number 5 plugged in: [60 * sqrt 10 = 189.73...]. *)
Lemma search_fast_5 : SEARCH_FAST 1000 5 = 189.
Proof.
  unfold SEARCH_FAST, Rdiv.
  replace (2 * 1000 * 5 * / 1000)%R with 10%R by field.
  apply Int_part_spec.
  pose proof (sqrt_pos 10) as Hp.
  pose proof (sqrt_sqrt 10 ltac:(lra)) as Hs.
  split; nra.
Qed.

(** C7 (amended).  The fast search feedrate of every axis is
    [(uint32_t)(60 * sqrt(2 * ACCELERATION * ENDSTOP_CLEARANCE / 1000))]
    with ENDSTOP_CLEARANCE in micrometres; with ACCELERATION = 1000 and
    ENDSTOP_CLEARANCE = 5 mm (5000) it is 6000 mm/min, and with the number 5
    plugged in it is 189; neither is about 1897. *)
Theorem search_fast_formula :
  (forall acc clr : R,
     SEARCH_FAST acc clr = Int_part (60 * sqrt (2 * acc * clr / 1000))%R) /\
  SEARCH_FAST 1000 5000 = 6000 /\ SEARCH_FAST 1000 5 = 189.
Proof.
  split; [reflexivity|]. split; [exact search_fast_5mm | exact search_fast_5].
Qed.

(** C7 counterexample: the formula does not give about 1897 mm/min for
    ACCELERATION = 1000 and a clearance of 5 mm, whether the clearance is
    written 5000 (um, the unit of the formula) or 5. *)
Lemma search_fast_not_1897 :
  ~ (1800 <= SEARCH_FAST 1000 5000 <= 2000) /\ ~ (1800 <= SEARCH_FAST 1000 5 <= 2000).
Proof. rewrite search_fast_5mm, search_fast_5. lia. Qed.

(* ------------------------------------------------------------------ *)
(** ** Instances at concrete inputs *)

Lemma large_delay_wrap_witness :
  (0 <= OCR1A (timer_at 5 100) < 65536 /\ 65536 <= 197842 < 2 ^ 31 /\
   (Z.to_nat (197842 / 65536) < 4)%nat) /\
  fst (timer_set false AVR 197842 false (timer_at 5 100)) = 0.
Proof.
  assert (h1 : 0 <= OCR1A (timer_at 5 100) < 65536) by (cbn; lia).
  assert (h2 : 65536 <= 197842 < 2 ^ 31) by lia.
  assert (h3 : (Z.to_nat (197842 / 65536) < 4)%nat) by (vm_compute; lia).
  split; [split; [exact h1 | split; [exact h2 | exact h3]] |].
  exact (proj1 (large_delay_wrap false AVR (fun s => s) (timer_at 5 100) 197842 4 h1 h2 h3)).
Defined.

Lemma guard_band_total_delay_witness :
  (0 <= OCR1A (timer_at 5 100) < 65536 /\ 65536 <= 70000 < 2 ^ 31 /\
   (Z.to_nat (70000 / 65536) < 2)%nat /\
   fst (timer_set true AVR 70000 true (timer_at 5 100)) = 0 /\ 70000 < 75536) /\
  OCR1A (snd (timer_set true AVR 70000 true (timer_at 5 100))) = (5 - 10000) mod 65536 /\
  next_step_time (snd (timer_set true AVR 70000 true (timer_at 5 100))) = 70000 + 10000.
Proof.
  assert (h1 : 0 <= OCR1A (timer_at 5 100) < 65536) by (cbn; lia).
  assert (h2 : 65536 <= 70000 < 2 ^ 31) by lia.
  assert (h3 : (Z.to_nat (70000 / 65536) < 2)%nat) by (vm_compute; lia).
  assert (h4 : fst (timer_set true AVR 70000 true (timer_at 5 100)) = 0) by (vm_compute; reflexivity).
  assert (h5 : 70000 < 75536) by lia.
  split; [repeat split; assumption || lia |].
  exact (proj1 (proj2 (guard_band_total_delay true AVR (fun s => s) (timer_at 5 100) 70000 true 2
                  h1 h2 h3)) h4 h5).
Defined.


Lemma too_short_leaves_state_witness :
  fst (timer_set true AVR 50 true (timer_at 0 100)) = 1 /\
  sreg_I (snd (timer_set true AVR 50 true (timer_at 0 100))) = false.
Proof.
  assert (h : fst (timer_set true AVR 50 true (timer_at 0 100)) = 1) by reflexivity.
  split; [exact h|].
  destruct (too_short_leaves_state true AVR 50 true (timer_at 0 100) h)
    as (_ & _ & hI & _). exact hI.
Defined.

Lemma step_isr_disarms_witness :
  next_step_time (mkTimer1 0 0 (Z.lor (MASK OCIE1A) (MASK OCIE1B)) 0 true) < 65536 /\
  ocie1a_enabled (isr_compa (queue_step_model true AVR [])
                    (mkTimer1 0 0 (Z.lor (MASK OCIE1A) (MASK OCIE1B)) 0 true)) = false.
Proof.
  assert (h : next_step_time (mkTimer1 0 0 (Z.lor (MASK OCIE1A) (MASK OCIE1B)) 0 true) < 65536)
    by (cbn; lia).
  split; [exact h|].
  exact (proj2 (proj2 step_isr_disarms) true AVR _ h).
Defined.

Lemma two_pass_homing_witness :
  (In (home_x_negative, X, false, 1) homing_routines /\
   routine_enabled (cfg_example X) false = true) /\
  enqueued_moves (trace (home_x_negative cfg_example home_example)) =
  enqueued_moves (trace home_example) ++
  two_pass_moves (cfg_example X) (startpoint home_example) X (-1000000) 1.
Proof.
  assert (h1 : In (home_x_negative, X, false, 1) homing_routines) by (simpl; left; reflexivity).
  assert (h2 : routine_enabled (cfg_example X) false = true) by reflexivity.
  split; [split; assumption |].
  exact (two_pass_homing cfg_example home_example home_x_negative X false 1 h1 h2).
Defined.

Lemma home_u_uses_z_endstop_bits_witness :
  min_pin (cfg_example U) = true /\
  exists ms, enqueued_masks (trace (home_u_negative cfg_example home_example)) =
             enqueued_masks (trace home_example) ++ ms /\
             ms <> [] /\ Forall (fun m => m = endstop_bit Zaxis false) ms.
Proof.
  assert (h : min_pin (cfg_example U) = true) by reflexivity.
  split; [exact h|].
  exact (proj1 (home_u_uses_z_endstop_bits cfg_example home_example) h).
Defined.

Lemma home_x_negative_origin_witness :
  min_pin (cfg_example X) = true /\
  get_axis (axis (startpoint (home_x_negative cfg_example home_example))) X =
    (match min_um (cfg_example X) with Some v => v | None => 0 end).
Proof.
  assert (h : min_pin (cfg_example X) = true) by reflexivity.
  split; [exact h|].
  exact (proj1 (proj2 (home_x_negative_origin cfg_example home_example h))).
Defined.

(* ================================================================== *)
(** * Further properties of timer-avr.c and home.c *)

(** ** System clock interrupt *)

Lemma mod_add_mod (x y : Z) : (x mod 65536 + y) mod 65536 = (x + y) mod 65536.
Proof. apply Zplus_mod_idemp_l. Qed.

(** Compare B matches arriving while the latch is set: each advances the
    compare and calls [clock_tick()], none calls [dda_clock()]. *)
Lemma nested_ticks_effect (T : Z) (k : nat) (c : sysclk) :
  busy c = true -> 0 <= OCR1B c < 65536 ->
  nested_ticks T k c =
  mkSysclk (TCCR1A c) (TCCR1B c) ((OCR1B c + Z.of_nat k * T) mod 65536) true
           (clock_ticks c + k) (dda_clocks c).
Proof.
  intros Hb Ho. induction k as [|k IH].
  - destruct c as [a b o bz ct dc]; cbn in *. subst bz.
    rewrite Nat.add_0_r, Z.add_0_r, Z.mod_small by lia. reflexivity.
  - unfold nested_ticks in *. rewrite Nat.iter_succ, IH.
    unfold isr_compb. cbn. rewrite land_ffff, mod_add_mod.
    rewrite <- Nat.add_succ_comm.
    replace (OCR1B c + Z.of_nat k * T + T) with (OCR1B c + Z.of_nat (S k) * T) by lia.
    reflexivity.
Qed.

(** [ISR(TIMER1_COMPB_vect)] entered with the latch clear, with [k] compare
    B matches nested in its [dda_clock()] call: [dda_clock()] runs once,
    [clock_tick()] runs once per match ([k + 1] times), the compare has
    advanced by [k + 1] times [TICK_TIME] modulo 65536, and the latch is
    clear again at the end. *)
Theorem system_tick_reentry (TICK_TIME : Z) (k : nat) (c : sysclk) :
  busy c = false ->
  isr_compb TICK_TIME (nested_ticks TICK_TIME k) c =
  mkSysclk (TCCR1A c) (TCCR1B c) ((OCR1B c + Z.of_nat (S k) * TICK_TIME) mod 65536)
           false (S (clock_ticks c + k)) (S (dda_clocks c)).
Proof.
  intros Hb. unfold isr_compb.
  cbn [busy clock_tick set_OCR1B]. rewrite Hb. cbn [negb].
  rewrite nested_ticks_effect; cbn [busy set_busy dda_clock clock_tick set_OCR1B OCR1B TCCR1A TCCR1B
                                    clock_ticks dda_clocks]; [|reflexivity|].
  - rewrite land_ffff, mod_add_mod.
    replace (OCR1B c + TICK_TIME + Z.of_nat k * TICK_TIME)
      with (OCR1B c + Z.of_nat (S k) * TICK_TIME) by lia.
    reflexivity.
  - rewrite land_ffff. apply mod_range.
Qed.

(** ** Interrupt enables *)

Lemma testbit_mask_ocie1a_ocie1b : Z.testbit (MASK OCIE1A) OCIE1B = false.
Proof. reflexivity. Qed.

(** [timer_init] enables the system clock compare only; [timer_set] and the
    step interrupt never change the system clock enable bit (the real-step
    branch is taken up to the [queue_step] call); [timer_stop] disables
    both compare interrupts. *)
Theorem system_clock_enable (TICK_TIME : Z) (temporal : bool) (plat : platform) :
  (forall s c,
     ocie1a_enabled (fst (timer_init TICK_TIME s c)) = false /\
     ocie1b_enabled (fst (timer_init TICK_TIME s c)) = true /\
     OCR1B (snd (timer_init TICK_TIME s c)) = TICK_TIME mod 65536 /\
     TCCR1A (snd (timer_init TICK_TIME s c)) = 0 /\
     TCCR1B (snd (timer_init TICK_TIME s c)) = 1) /\
  (forall delay check_short s,
     ocie1b_enabled (snd (timer_set temporal plat delay check_short s)) =
     ocie1b_enabled s) /\
  (forall s, ocie1b_enabled (isr_compa (fun s => s) s) = ocie1b_enabled s) /\
  (forall s, ocie1a_enabled (timer_stop s) = false /\
             ocie1b_enabled (timer_stop s) = false).
Proof.
  split; [|split; [|split]].
  - intros s c. cbn. rewrite land_ffff. repeat split.
  - intros delay check_short s. unfold timer_set.
    destruct (temporal && check_short && _); [reflexivity|].
    unfold ocie1b_enabled. cbv zeta.
    destruct (_ <? 65536); [|destruct (_ <? 75536)];
      cbn [snd TIMSK1 set_TIMSK1 set_OCR1A set_next_step_time set_sreg_I];
      rewrite Z.lor_spec, testbit_mask_ocie1a_ocie1b, orb_false_r; reflexivity.
  - intros s. unfold isr_compa.
    destruct (next_step_time s <? 65536).
    + unfold ocie1b_enabled. cbn [TIMSK1 set_TIMSK1].
      rewrite Z.land_spec, Z.lnot_spec by (unfold OCIE1B; lia).
      rewrite testbit_mask_ocie1a_ocie1b. apply andb_true_r.
    + cbn [next_step_time set_next_step_time].
      destruct (_ <? 65536); [reflexivity|].
      destruct (_ <? 75536); reflexivity.
  - intros s. split; reflexivity.
Qed.

(** ** Edge cases of [timer_set] *)

(** A zero delay without the short check: the step is scheduled (return
    value 0) with the compare left at the anchor, so it fires a full counter
    period, 65536 ticks, after the previous step compare match. *)
Theorem zero_delay_full_period (temporal : bool) (plat : platform)
    (qs : timer1 -> timer1) (f : nat) (s : timer1) :
  fst (timer_set temporal plat 0 false s) = 0 /\
  compa_fires qs (S f) (OCR1A s) (snd (timer_set temporal plat 0 false s)) =
  [(StepFire, 65536)].
Proof.
  unfold timer_set. rewrite !andb_false_r. cbn [andb]. cbv zeta.
  change (u32 0) with 0.
  cbn [snd fst next_step_time set_next_step_time set_sreg_I OCR1A].
  change (0 <? 65536) with true. cbn iota. split; [reflexivity|].
  rewrite Z.add_0_l, land_u32.
  cbn [compa_fires next_step_time set_next_step_time set_sreg_I set_TIMSK1
       set_OCR1A OCR1A].
  change (0 <? 65536) with true. cbn iota. unfold ticks_to.
  rewrite Zminus_mod_idemp_l, Z.sub_diag. reflexivity.
Qed.

(** A negative [int32_t] delay without the short check is converted to
    [uint32_t]: the step is scheduled [2^32 + delay] ticks after the
    anchor, after [(2^32 + delay) / 65536] wrap matches. *)
Theorem negative_delay_wraps (temporal : bool) (plat : platform)
    (qs : timer1 -> timer1) (delay : Z) (fuel : nat) (s : timer1) :
  - 2 ^ 31 <= delay < 0 -> 0 <= OCR1A s < 65536 ->
  (Z.to_nat ((2 ^ 32 + delay) / 65536) < fuel)%nat ->
  fst (timer_set temporal plat delay false s) = 0 /\
  exists ds dl,
    compa_fires qs fuel (OCR1A s) (snd (timer_set temporal plat delay false s)) =
      map (fun d => (WrapFire, d)) ds ++ [(StepFire, dl)] /\
    length ds = Z.to_nat ((2 ^ 32 + delay) / 65536) /\
    sumZ (ds ++ [dl]) = 2 ^ 32 + delay.
Proof.
  intros Hd Ha Hf.
  assert (Hu : u32 delay = 2 ^ 32 + delay).
  { unfold u32. rewrite <- (Z.mod_small (2 ^ 32 + delay) (2 ^ 32)) by lia.
    rewrite <- Zplus_mod_idemp_l, Z_mod_same_full. reflexivity. }
  unfold timer_set. rewrite andb_false_r.
  cbn [next_step_time set_next_step_time set_sreg_I OCR1A]. rewrite Hu.
  destruct (Z.ltb_spec (2 ^ 32 + delay) 65536); [lia|].
  destruct (Z.ltb_spec (2 ^ 32 + delay) 75536); [lia|].
  split; [reflexivity|].
  destruct (compa_fires_wrap qs fuel (OCR1A s)
              (set_TIMSK1 (Z.lor (TIMSK1 s) (MASK OCIE1A))
                 (set_OCR1A (OCR1A s)
                    (set_next_step_time (2 ^ 32 + delay) (set_sreg_I false s))))
              (2 ^ 32 + delay) Ha) as (ds & dl & H1 & H2 & H3 & _).
  - left. cbn [OCR1A next_step_time set_TIMSK1 set_OCR1A set_next_step_time set_sreg_I].
    lia.
  - exact Hf.
  - exists ds, dl. auto.
Qed.

(** On AVR with [ACCELERATION_TEMPORAL], a negative delay with the short
    check is always TooShort: the 16-bit elapsed time plus 200, wrapped or
    not, is non-negative. *)
Theorem avr_negative_delay_too_short (delay : Z) (s : timer1) :
  delay < 0 ->
  timer_set true AVR delay true s =
  (1, set_next_step_time (u32 delay) (set_sreg_I false s)).
Proof.
  intros Hd. unfold timer_set. cbn [andb OCR1A TCNT1 set_sreg_I set_next_step_time].
  unfold short_request, u16.
  destruct (Z.ltb_spec delay ((((TCNT1 s - OCR1A s) mod 2 ^ 16) + 200) mod 2 ^ 16))
    as [_|H]; [reflexivity|].
  pose proof (Z.mod_pos_bound (((TCNT1 s - OCR1A s) mod 2 ^ 16) + 200) (2 ^ 16)).
  lia.
Qed.

(** On AVR with [ACCELERATION_TEMPORAL], when the 16-bit time [e] elapsed
    since the anchor is below 65336 and [timer_set(delay, 1)] schedules the
    step (delay below one period), the delay is at least [e + 200] and the
    compare match comes [delay - e] ticks after the current counter value:
    at least 200 ticks of headroom, and exactly [delay] ticks after the
    anchor. *)
Theorem short_check_headroom (delay : Z) (s : timer1) :
  0 <= delay < 65536 -> 0 <= OCR1A s < 65536 ->
  (TCNT1 s - OCR1A s) mod 65536 < 65336 ->
  fst (timer_set true AVR delay true s) = 0 ->
  (TCNT1 s - OCR1A s) mod 65536 + 200 <= delay /\
  (OCR1A (snd (timer_set true AVR delay true s)) - TCNT1 s) mod 65536 =
  delay - (TCNT1 s - OCR1A s) mod 65536.
Proof.
  intros Hd Ha He H0.
  pose proof (timer_set_small true AVR delay true s Hd Ha H0) as (Ho & _).
  assert (Hle : (TCNT1 s - OCR1A s) mod 65536 + 200 <= delay).
  { revert H0. unfold timer_set. cbn [andb OCR1A TCNT1 set_sreg_I set_next_step_time].
    rewrite short_request_avr_small by exact He.
    destruct (Z.ltb_spec delay ((TCNT1 s - OCR1A s) mod 65536 + 200)) as [_|Hle];
      [intros H; discriminate H|intros _; exact Hle]. }
  split; [exact Hle|].
  rewrite Ho. pose proof (mod_range (TCNT1 s - OCR1A s)).
  rewrite Zminus_mod_idemp_l.
  replace (OCR1A s + delay - TCNT1 s)
    with (delay - (TCNT1 s - OCR1A s) mod 65536
          + (- ((TCNT1 s - OCR1A s) / 65536)) * 65536) by zlia.
  rewrite Z.mod_add by lia. apply Z.mod_small. lia.
Qed.

(** ** [home()] *)

Lemma home_axis_startpoint (cfg : axis_t -> axis_config) (j : axis_t) (mn mp : Z)
    (s : home_state) (k : axis_t) :
  get_axis (axis (startpoint (home_axis cfg j (fun c => home_negative c j mn)
                                (fun c => home_positive c j mp) s))) k =
    (if axis_t_eqb j k then homed_position (cfg j) (get_axis (axis (startpoint s)) k)
     else get_axis (axis (startpoint s)) k) /\
  F (startpoint (home_axis cfg j (fun c => home_negative c j mn)
                   (fun c => home_positive c j mp) s)) = F (startpoint s).
Proof.
  unfold home_axis, homed_position.
  destruct (min_pin (cfg j)) eqn:Hmin.
  - unfold home_negative. rewrite Hmin.
    rewrite (proj1 (home_set_position_effect _ _ _)).
    rewrite (proj1 (home_search_effect _ _ _ _ _)).
    unfold set_target_axis. cbn [axis F]. rewrite get_set_axis.
    split; [|reflexivity]. destruct (axis_t_eqb j k); reflexivity.
  - destruct (max_pin (cfg j)) eqn:Hmax.
    + unfold home_positive. rewrite Hmax.
      destruct (max_um (cfg j)) as [v|].
      * rewrite (proj1 (home_set_position_effect _ _ _)).
        rewrite (proj1 (home_search_effect _ _ _ _ _)).
        unfold set_target_axis. cbn [axis F]. rewrite get_set_axis.
        split; [|reflexivity]. destruct (axis_t_eqb j k); reflexivity.
      * split; [|reflexivity]. destruct (axis_t_eqb j k); reflexivity.
    + split; [|reflexivity]. destruct (axis_t_eqb j k); reflexivity.
Qed.

(** [home()] leaves every axis X, Y, Z, U of [startpoint] at its MIN
    position (0 without [<AXIS>_MIN]) when the MIN endstop is configured,
    else at its MAX position when the MAX endstop and [<AXIS>_MAX] are
    configured, and unchanged otherwise; E and the feedrate of [startpoint]
    are not touched.  In particular each axis is homed at most once and
    the MIN endstop takes precedence. *)
Theorem home_positions (cfg : axis_t -> axis_config) (s : home_state) :
  (forall i, get_axis (axis (startpoint (home cfg s))) i =
             if axis_t_eqb i E then get_axis (axis (startpoint s)) i
             else homed_position (cfg i) (get_axis (axis (startpoint s)) i)) /\
  F (startpoint (home cfg s)) = F (startpoint s).
Proof.
  unfold home, home_x_negative, home_x_positive, home_y_negative, home_y_positive,
    home_z_negative, home_z_positive, home_u_negative, home_u_positive.
  split.
  - intros i. rewrite !(proj1 (home_axis_startpoint _ _ _ _ _ _)).
    destruct i; reflexivity.
  - rewrite !(proj2 (home_axis_startpoint _ _ _ _ _ X)). reflexivity.
Qed.

(** ** I2C *)

Lemma land_pow2_eqb (x n : Z) : 0 <= n -> (Z.land x (2 ^ n) =? 0) = negb (Z.testbit x n).
Proof.
  intros Hn. destruct (Z.testbit x n) eqn:Hb; cbn [negb].
  - apply Z.eqb_neq. intros H0.
    assert (Ht : Z.testbit (Z.land x (2 ^ n)) n = true)
      by (rewrite Z.land_spec, Hb, Z.pow2_bits_true by exact Hn; reflexivity).
    rewrite H0, Z.testbit_0_l in Ht. discriminate Ht.
  - apply Z.eqb_eq. apply Z.bits_inj'. intros m Hm.
    rewrite Z.land_spec, Z.testbit_0_l.
    destruct (Z.eq_dec m n) as [->|Hne]; [rewrite Hb; reflexivity|].
    rewrite Z.pow2_bits_false by (intros E; apply Hne; symmetry; exact E). apply andb_false_r.
Qed.

Lemma error_bit (x : Z) : (Z.land x I2C_ERROR =? 0) = negb (Z.testbit x 0).
Proof. change I2C_ERROR with (2 ^ 0). apply land_pow2_eqb. lia. Qed.

Lemma busy_bit (x : Z) : (Z.land x I2C_MODE_BUSY =? 0) = negb (Z.testbit x 6).
Proof. change I2C_MODE_BUSY with (2 ^ 6). apply land_pow2_eqb. lia. Qed.

Lemma i2c_busy_bit (s : i2c) : i2c_busy s <> 0 <-> Z.testbit (i2c_state s) 6 = true.
Proof.
  unfold i2c_busy. pose proof (busy_bit (i2c_state s)) as H.
  destruct (Z.testbit (i2c_state s) 6); cbn [negb] in H.
  - apply Z.eqb_neq in H. tauto.
  - apply Z.eqb_eq in H. split; [contradiction|discriminate].
Qed.

(** [i2c_write] while the error flag is set, for the last byte: the byte
    is dropped and the flag cleared. *)
Lemma i2c_write_error_last (cap : nat) (d : Z) (s : i2c) :
  Z.testbit (i2c_state s) 0 = true ->
  i2c_write cap d 1 s = Some (set_i2c_state (Z.land (i2c_state s) (Z.lnot I2C_ERROR)) s).
Proof. intros H. unfold i2c_write. rewrite error_bit, H. reflexivity. Qed.

(** [i2c_write] while a transmission is running: the byte is queued, no
    START is issued. *)
Lemma i2c_write_queued (cap : nat) (d lb : Z) (s : i2c) :
  Z.testbit (i2c_state s) 0 = false -> Z.testbit (i2c_state s) 6 = true ->
  i2c_should_end s = 0 -> (length (sendbuf s) < cap)%nat ->
  i2c_write cap d lb s = Some (set_i2c_should_end lb (set_sendbuf (sendbuf s ++ [d]) s)).
Proof.
  intros He Hb Hse Hl. unfold i2c_write, buf_canwrite, buf_push.
  rewrite error_bit, He, Hse, (proj2 (Nat.ltb_lt _ _) Hl), busy_bit, Hb.
  reflexivity.
Qed.

(** [i2c_write] on an idle bus: a START is issued and the byte queued. *)
Lemma i2c_write_starts (cap : nat) (d lb : Z) (s : i2c) :
  i2c_state s = 0 -> i2c_should_end s = 0 -> (length (sendbuf s) < cap)%nat ->
  i2c_write cap d lb s =
  Some (set_i2c_should_end lb (set_sendbuf (sendbuf s ++ [d])
         (set_i2c_state (Z.lor I2C_MODE_SAWP I2C_MODE_BUSY)
           (set_TWCR (twcr_value 1 0 1 0 1 1) (set_i2c_state I2C_MODE_SAWP s))))).
Proof.
  intros Hst Hse Hl. unfold i2c_write, buf_canwrite, buf_push.
  rewrite Hst, Hse, (proj2 (Nat.ltb_lt _ _) Hl). reflexivity.
Qed.

(** [i2c_write] waits while the previous transmission has not ended. *)
Lemma i2c_write_waits (cap : nat) (d lb : Z) (s : i2c) :
  Z.testbit (i2c_state s) 0 = false -> i2c_should_end s <> 0 ->
  i2c_write cap d lb s = None.
Proof.
  intros He Hse. unfold i2c_write. rewrite error_bit, He.
  apply Z.eqb_neq in Hse. rewrite Hse. reflexivity.
Qed.

(** [i2c_init] waits while the bus is busy. *)
Lemma i2c_init_waits (F_CPU I2C_BITRATE address : Z) (s : i2c) :
  Z.testbit (i2c_state s) 6 = true -> i2c_init F_CPU I2C_BITRATE address s = None.
Proof. intros H. unfold i2c_init. rewrite busy_bit, H. reflexivity. Qed.

(** A whole transmission handed to [i2c_write] on an idle bus. *)
Lemma i2c_send_all (cap : nat) (bs : list Z) :
  forall s, bs <> [] -> (i2c_state s = 0 \/ i2c_state s = 68) ->
  i2c_should_end s = 0 -> (length (sendbuf s) + length bs <= cap)%nat ->
  exists s', i2c_send cap bs s = Some s' /\ i2c_state s' = 68 /\
             i2c_should_end s' = 1 /\ sendbuf s' = sendbuf s ++ bs /\
             i2c_address s' = i2c_address s /\
             TWCR s' = (if i2c_state s =? 0 then twcr_value 1 0 1 0 1 1 else TWCR s).
Proof.
  induction bs as [|b rest IH]; intros s Hne Hst Hse Hl; [contradiction|].
  cbn [length] in Hl.
  assert (Hw : forall lb, exists s1, i2c_write cap b lb s = Some s1 /\
             i2c_state s1 = 68 /\ i2c_should_end s1 = lb /\
             sendbuf s1 = sendbuf s ++ [b] /\ i2c_address s1 = i2c_address s /\
             TWCR s1 = (if i2c_state s =? 0 then twcr_value 1 0 1 0 1 1 else TWCR s)).
  { intros lb. destruct Hst as [Hst|Hst].
    - rewrite i2c_write_starts by (auto; lia). rewrite Hst. eexists.
      split; [reflexivity|]. cbn. auto 10.
    - rewrite i2c_write_queued by (rewrite ?Hst; auto; lia). rewrite Hst. eexists.
      split; [reflexivity|]. cbn. auto. }
  destruct rest as [|b' rest'].
  - destruct (Hw 1) as (s1 & H1 & H2 & H3 & H4 & H5 & H6).
    exists s1. cbn [i2c_send]. auto 10.
  - destruct (Hw 0) as (s1 & H1 & H2 & H3 & H4 & H5 & H6).
    cbn [i2c_send]. rewrite H1.
    destruct (IH s1) as (s2 & G1 & G2 & G3 & G4 & G5 & G6);
      [discriminate|auto|exact H3|rewrite H4, length_app; cbn [length] in *; lia|].
    exists s2. rewrite G4, H4, <- app_assoc, G5, H5, G6, H2, H6. auto 10.
Qed.

Lemma isr_start_sawp (s : i2c) :
  i2c_state s = 68 ->
  isr_twi (set_TWSR TW_START s) =
  set_TWCR (twcr_value 1 I2C_MODE 0 0 1 1)
    (set_TWDR (Z.land (i2c_address s) 254)
      (set_i2c_address (Z.land (i2c_address s) 254) (set_TWSR TW_START s))).
Proof. intros H. unfold isr_twi. cbn [TWSR set_TWSR i2c_state]. rewrite H. reflexivity. Qed.

Lemma isr_sla_ack_sawp (s : i2c) (x : Z) (r : list Z) :
  i2c_state s = 68 -> sendbuf s = x :: r ->
  isr_twi (set_TWSR TW_MT_SLA_ACK s) =
  set_TWCR (twcr_value 1 I2C_MODE 0 0 1 1)
    (set_TWDR x (set_sendbuf r (set_TWSR TW_MT_SLA_ACK s))).
Proof.
  intros H Hb. unfold isr_twi, pop_to_TWDR.
  cbn [TWSR set_TWSR i2c_state sendbuf]. rewrite H, Hb. reflexivity.
Qed.

Lemma isr_data_ack_sawp (s : i2c) (x : Z) (r : list Z) :
  i2c_state s = 68 -> sendbuf s = x :: r ->
  isr_twi (set_TWSR TW_MT_DATA_ACK s) =
  set_TWCR (twcr_value 1 I2C_MODE 0 0 1 1)
    (set_TWDR x (set_sendbuf r (set_TWSR TW_MT_DATA_ACK s))).
Proof.
  intros H Hb. unfold isr_twi, pop_to_TWDR.
  cbn [TWSR set_TWSR i2c_state sendbuf]. rewrite H, Hb. reflexivity.
Qed.

Lemma isr_data_ack_drained (s : i2c) :
  i2c_state s = 68 -> sendbuf s = [] ->
  isr_twi (set_TWSR TW_MT_DATA_ACK s) =
  set_TWCR (twcr_value 1 I2C_MODE 0 1 1 0)
    (set_i2c_should_end 0 (set_i2c_state 0 (set_TWSR TW_MT_DATA_ACK s))).
Proof.
  intros H Hb. unfold isr_twi.
  cbn [TWSR set_TWSR i2c_state sendbuf]. rewrite H, Hb. reflexivity.
Qed.

(** Data acknowledged byte after byte: the queued bytes go to TWDR in
    order. *)
Lemma twi_run_data (l : list Z) :
  forall s, i2c_state s = 68 -> sendbuf s = l ->
  exists s', twi_run (repeat TW_MT_DATA_ACK (length l)) s = (l, s') /\
             i2c_state s' = 68 /\ sendbuf s' = [].
Proof.
  induction l as [|x r IH]; intros s H Hb.
  - exists s. auto.
  - cbn [length repeat twi_run]. rewrite (isr_data_ack_sawp s x r H Hb).
    destruct (IH (set_TWCR (twcr_value 1 I2C_MODE 0 0 1 1)
                    (set_TWDR x (set_sendbuf r (set_TWSR TW_MT_DATA_ACK s)))))
      as (s' & H1 & H2 & H3); [exact H|reflexivity|].
    rewrite H1. exists s'. auto.
Qed.

Lemma isr_error_case (st : Z) (s : i2c) :
  In st [TW_BUS_ERROR; TW_MT_SLA_NACK; TW_MT_DATA_NACK; TW_MT_ARB_LOST] ->
  isr_twi (set_TWSR st s) =
  set_TWCR (twcr_value 1 I2C_MODE 0 1 1 0)
    (fold_left (fun s _ => pop_to_TWDR s) (sendbuf s)
      (set_i2c_should_end 0
        (set_i2c_state (Z.lor (i2c_state s) (Z.lor I2C_ERROR I2C_INTERRUPTED))
          (set_TWSR st s)))).
Proof. intros [<-|[<-|[<-|[<-|[]]]]]; reflexivity. Qed.

Lemma drain_effect (l : list Z) :
  forall s, sendbuf s = l ->
  sendbuf (fold_left (fun s _ => pop_to_TWDR s) l s) = [] /\
  i2c_state (fold_left (fun s _ => pop_to_TWDR s) l s) = i2c_state s /\
  i2c_should_end (fold_left (fun s _ => pop_to_TWDR s) l s) = i2c_should_end s.
Proof.
  induction l as [|x r IH]; intros s Hb; [auto|].
  assert (Hp : pop_to_TWDR s = set_TWDR x (set_sendbuf r s))
    by (unfold pop_to_TWDR; rewrite Hb; reflexivity).
  cbn [fold_left]. rewrite Hp.
  destruct (IH (set_TWDR x (set_sendbuf r s)) eq_refl) as (H1 & H2 & H3).
  rewrite H1, H2, H3. auto.
Qed.

(** A transmission on an idle bus, in master mode: the bytes [bs] handed to
    [i2c_write] (the last with [last_byte] set, at most the buffer capacity)
    are queued and a START issued; the bus then reports START, SLA+W
    acknowledged and one data acknowledge per byte but the last, and TWDR
    takes the write address of the target and then the bytes in order; the
    acknowledge of the last byte sends STOP with the TWI interrupt disabled
    and leaves the driver idle (state 0), the buffer empty. *)
Theorem i2c_transmission (cap : nat) (bs : list Z) (s : i2c) :
  i2c_state s = 0 -> i2c_should_end s = 0 -> sendbuf s = [] ->
  bs <> [] -> (length bs <= cap)%nat ->
  exists s1,
    i2c_send cap bs s = Some s1 /\
    i2c_state s1 = Z.lor I2C_MODE_SAWP I2C_MODE_BUSY /\ i2c_busy s1 <> 0 /\
    TWCR s1 = twcr_value 1 0 1 0 1 1 /\ Z.testbit (TWCR s1) TWSTA = true /\
    sendbuf s1 = bs /\ i2c_should_end s1 = 1 /\
    fst (twi_run (TW_START :: TW_MT_SLA_ACK :: repeat TW_MT_DATA_ACK (length bs - 1)) s1)
      = Z.land (i2c_address s) 254 :: bs /\
    (let s3 := isr_twi (set_TWSR TW_MT_DATA_ACK
          (snd (twi_run (TW_START :: TW_MT_SLA_ACK ::
                         repeat TW_MT_DATA_ACK (length bs - 1)) s1))) in
     i2c_state s3 = 0 /\ i2c_busy s3 = 0 /\ i2c_should_end s3 = 0 /\ sendbuf s3 = [] /\
     Z.testbit (TWCR s3) TWSTO = true /\ Z.testbit (TWCR s3) TWIE = false).
Proof.
  intros Hst Hse Hb Hne Hl.
  destruct (i2c_send_all cap bs s Hne (or_introl Hst) Hse)
    as (s1 & H1 & H2 & H3 & H4 & H5 & H6); [rewrite Hb; cbn [length]; lia|].
  rewrite Hb in H4. cbn [app] in H4. rewrite Hst in H6.
  exists s1. split; [exact H1|]. split; [rewrite H2; reflexivity|].
  split; [apply i2c_busy_bit; rewrite H2; reflexivity|].
  split; [exact H6|]. split; [rewrite H6; reflexivity|].
  split; [exact H4|]. split; [exact H3|].
  destruct bs as [|b rest]; [contradiction|].
  cbn [length]. replace (S (length rest) - 1)%nat with (length rest) by lia.
  cbn [twi_run]. rewrite (isr_start_sawp s1 H2).
  rewrite (isr_sla_ack_sawp _ b rest); [|exact H2|exact H4].
  destruct (twi_run_data rest
              (set_TWCR (twcr_value 1 I2C_MODE 0 0 1 1)
                (set_TWDR b (set_sendbuf rest
                  (set_TWSR TW_MT_SLA_ACK
                    (set_TWCR (twcr_value 1 I2C_MODE 0 0 1 1)
                      (set_TWDR (Z.land (i2c_address s1) 254)
                        (set_i2c_address (Z.land (i2c_address s1) 254)
                          (set_TWSR TW_START s1)))))))))
    as (s2 & G1 & G2 & G3); [exact H2|reflexivity|].
  rewrite G1. cbn [fst snd TWDR set_TWCR set_TWDR].
  rewrite H5. split; [reflexivity|].
  rewrite (isr_data_ack_drained s2 G2 G3). cbn. auto 10.
Qed.

(** After an error status (bus error, SLA+W or data not acknowledged,
    arbitration lost) during a transmission, the interrupt empties the
    buffer, clears [i2c_should_end], sets the error flag and sends STOP
    with the TWI interrupt disabled, but leaves the busy bit set: from then
    on [i2c_init] waits forever; a writer that ends the truncated
    transmission ([last_byte] set) has its byte dropped and the error flag
    cleared, nothing else changing; its next transmission's last byte is
    queued (the buffer holds just that byte) but gets no START (TWCR
    unchanged, still busy), and the writer waits forever on its next
    [i2c_write], as no interrupt can occur any more to end the
    transmission. *)
Theorem i2c_error_stalls (cap : nat) (st : Z) (s : i2c) :
  In st [TW_BUS_ERROR; TW_MT_SLA_NACK; TW_MT_DATA_NACK; TW_MT_ARB_LOST] ->
  i2c_busy s <> 0 -> (1 <= cap)%nat ->
  let s1 := isr_twi (set_TWSR st s) in
  sendbuf s1 = [] /\ i2c_should_end s1 = 0 /\ Z.land (i2c_state s1) I2C_ERROR <> 0 /\
  i2c_busy s1 <> 0 /\ Z.testbit (TWCR s1) TWSTO = true /\ Z.testbit (TWCR s1) TWIE = false /\
  (forall F_CPU I2C_BITRATE address, i2c_init F_CPU I2C_BITRATE address s1 = None) /\
  (forall d1 d2 d3 lb, exists s2 s3,
     i2c_write cap d1 1 s1 = Some s2 /\
     s2 = set_i2c_state (Z.land (i2c_state s1) (Z.lnot I2C_ERROR)) s1 /\
     sendbuf s2 = [] /\ Z.land (i2c_state s2) I2C_ERROR = 0 /\ i2c_busy s2 <> 0 /\
     i2c_write cap d2 1 s2 = Some s3 /\
     sendbuf s3 = [d2] /\ i2c_should_end s3 = 1 /\
     TWCR s3 = TWCR s1 /\ i2c_busy s3 <> 0 /\ i2c_write cap d3 lb s3 = None).
Proof.
  intros Hin Hbusy Hcap. cbv zeta. rewrite (isr_error_case st s Hin).
  apply i2c_busy_bit in Hbusy.
  destruct (drain_effect (sendbuf s)
              (set_i2c_should_end 0
                (set_i2c_state (Z.lor (i2c_state s) (Z.lor I2C_ERROR I2C_INTERRUPTED))
                  (set_TWSR st s))) eq_refl) as (D1 & D2 & D3).
  set (sd := fold_left _ _ _) in *.
  cbn [i2c_state i2c_should_end set_i2c_should_end set_i2c_state set_TWSR] in D2, D3.
  assert (B0 : Z.testbit (i2c_state sd) 0 = true)
    by (rewrite D2, Z.lor_spec; apply orb_true_r).
  assert (B6 : Z.testbit (i2c_state sd) 6 = true)
    by (rewrite D2, Z.lor_spec, Hbusy; reflexivity).
  assert (C0 : Z.testbit (Z.land (i2c_state sd) (Z.lnot I2C_ERROR)) 0 = false)
    by (rewrite Z.land_spec, Z.lnot_spec by lia; apply andb_false_r).
  assert (C6 : Z.testbit (Z.land (i2c_state sd) (Z.lnot I2C_ERROR)) 6 = true)
    by (rewrite Z.land_spec, Z.lnot_spec, B6 by lia; reflexivity).
  split; [exact D1|]. split; [exact D3|].
  split; [cbn [i2c_state set_TWCR]; apply Z.eqb_neq; rewrite error_bit, B0; reflexivity|].
  split; [apply i2c_busy_bit; exact B6|]. split; [reflexivity|]. split; [reflexivity|].
  split; [intros; apply i2c_init_waits; exact B6|].
  intros d1 d2 d3 lb.
  set (s1 := set_TWCR (twcr_value 1 I2C_MODE 0 1 1 0) sd).
  set (s2 := set_i2c_state (Z.land (i2c_state s1) (Z.lnot I2C_ERROR)) s1).
  set (s3 := set_i2c_should_end 1 (set_sendbuf (sendbuf s2 ++ [d2]) s2)).
  exists s2, s3. split; [apply i2c_write_error_last; exact B0|].
  split; [reflexivity|].
  split; [exact D1|].
  split; [apply Z.eqb_eq; rewrite error_bit; cbn [s2 s1 i2c_state set_i2c_state set_TWCR];
          rewrite C0; reflexivity|].
  split; [apply i2c_busy_bit; exact C6|].
  split; [apply i2c_write_queued; cbn [i2c_state set_i2c_state set_TWCR sendbuf
                                       i2c_should_end s2 s1];
          [exact C0|exact C6|exact D3|rewrite D1; cbn [length]; lia]|].
  split; [cbn [s3 s2 s1 sendbuf set_sendbuf set_i2c_should_end set_i2c_state set_TWCR];
          rewrite D1; reflexivity|].
  split; [reflexivity|].
  split; [reflexivity|]. split; [apply i2c_busy_bit; exact C6|].
  apply i2c_write_waits; [exact C0|discriminate].
Qed.

(** ** Witnesses of the further properties *)

Lemma system_tick_reentry_witness :
  busy (mkSysclk 0 1 60000 false 7 3) = false /\
  isr_compb 40000 (nested_ticks 40000 2) (mkSysclk 0 1 60000 false 7 3) =
  mkSysclk 0 1 ((60000 + Z.of_nat 3 * 40000) mod 65536) false (S (7 + 2)) (S 3).
Proof.
  assert (h : busy (mkSysclk 0 1 60000 false 7 3) = false) by reflexivity.
  split; [exact h|].
  exact (system_tick_reentry 40000 2 (mkSysclk 0 1 60000 false 7 3) h).
Defined.

Lemma negative_delay_wraps_witness :
  (- 2 ^ 31 <= -1 < 0 /\ 0 <= OCR1A (timer_at 5 100) < 65536 /\
   (Z.to_nat ((2 ^ 32 + -1) / 65536) < Z.to_nat 65536)%nat) /\
  (fst (timer_set false AVR (-1) false (timer_at 5 100)) = 0 /\
   exists ds dl,
     compa_fires (fun s => s) (Z.to_nat 65536) (OCR1A (timer_at 5 100))
       (snd (timer_set false AVR (-1) false (timer_at 5 100))) =
       map (fun d => (WrapFire, d)) ds ++ [(StepFire, dl)] /\
     length ds = Z.to_nat ((2 ^ 32 + -1) / 65536) /\
     sumZ (ds ++ [dl]) = 2 ^ 32 + -1).
Proof.
  assert (h1 : - 2 ^ 31 <= -1 < 0) by lia.
  assert (h2 : 0 <= OCR1A (timer_at 5 100) < 65536) by (cbn; lia).
  assert (h3 : (Z.to_nat ((2 ^ 32 + -1) / 65536) < Z.to_nat 65536)%nat)
    by (change ((2 ^ 32 + -1) / 65536) with 65535; lia).
  split; [split; [exact h1|split; [exact h2|exact h3]]|].
  exact (negative_delay_wraps false AVR (fun s => s) (-1) (Z.to_nat 65536)
           (timer_at 5 100) h1 h2 h3).
Defined.

Lemma avr_negative_delay_too_short_witness :
  -5 < 0 /\
  timer_set true AVR (-5) true (timer_at 5 100) =
  (1, set_next_step_time (u32 (-5)) (set_sreg_I false (timer_at 5 100))).
Proof.
  assert (h : -5 < 0) by lia.
  split; [exact h|]. exact (avr_negative_delay_too_short (-5) (timer_at 5 100) h).
Defined.

Lemma short_check_headroom_witness :
  (0 <= 1000 < 65536 /\ 0 <= OCR1A (timer_at 0 100) < 65536 /\
   (TCNT1 (timer_at 0 100) - OCR1A (timer_at 0 100)) mod 65536 < 65336 /\
   fst (timer_set true AVR 1000 true (timer_at 0 100)) = 0) /\
  ((TCNT1 (timer_at 0 100) - OCR1A (timer_at 0 100)) mod 65536 + 200 <= 1000 /\
   (OCR1A (snd (timer_set true AVR 1000 true (timer_at 0 100))) - TCNT1 (timer_at 0 100))
     mod 65536 = 1000 - (TCNT1 (timer_at 0 100) - OCR1A (timer_at 0 100)) mod 65536).
Proof.
  assert (h1 : 0 <= 1000 < 65536) by lia.
  assert (h2 : 0 <= OCR1A (timer_at 0 100) < 65536) by (cbn; lia).
  assert (h3 : (TCNT1 (timer_at 0 100) - OCR1A (timer_at 0 100)) mod 65536 < 65336)
    by (apply Z.ltb_lt; reflexivity).
  assert (h4 : fst (timer_set true AVR 1000 true (timer_at 0 100)) = 0) by reflexivity.
  split; [split; [exact h1|split; [exact h2|split; [exact h3|exact h4]]]|].
  exact (short_check_headroom 1000 (timer_at 0 100) h1 h2 h3 h4).
Defined.

Lemma i2c_transmission_witness :
  (i2c_state (mkI2C 120 0 0 [] 0 0 0 0) = 0 /\
   i2c_should_end (mkI2C 120 0 0 [] 0 0 0 0) = 0 /\
   sendbuf (mkI2C 120 0 0 [] 0 0 0 0) = [] /\
   [64; 1; 2] <> [] /\ (length [64; 1; 2] <= 8)%nat) /\
  exists s1,
    i2c_send 8 [64; 1; 2] (mkI2C 120 0 0 [] 0 0 0 0) = Some s1 /\
    i2c_state s1 = Z.lor I2C_MODE_SAWP I2C_MODE_BUSY /\ i2c_busy s1 <> 0 /\
    TWCR s1 = twcr_value 1 0 1 0 1 1 /\ Z.testbit (TWCR s1) TWSTA = true /\
    sendbuf s1 = [64; 1; 2] /\ i2c_should_end s1 = 1 /\
    fst (twi_run (TW_START :: TW_MT_SLA_ACK ::
                  repeat TW_MT_DATA_ACK (length [64; 1; 2] - 1)) s1)
      = Z.land (i2c_address (mkI2C 120 0 0 [] 0 0 0 0)) 254 :: [64; 1; 2] /\
    (let s3 := isr_twi (set_TWSR TW_MT_DATA_ACK
          (snd (twi_run (TW_START :: TW_MT_SLA_ACK ::
                         repeat TW_MT_DATA_ACK (length [64; 1; 2] - 1)) s1))) in
     i2c_state s3 = 0 /\ i2c_busy s3 = 0 /\ i2c_should_end s3 = 0 /\ sendbuf s3 = [] /\
     Z.testbit (TWCR s3) TWSTO = true /\ Z.testbit (TWCR s3) TWIE = false).
Proof.
  assert (h1 : i2c_state (mkI2C 120 0 0 [] 0 0 0 0) = 0) by reflexivity.
  assert (h2 : i2c_should_end (mkI2C 120 0 0 [] 0 0 0 0) = 0) by reflexivity.
  assert (h3 : sendbuf (mkI2C 120 0 0 [] 0 0 0 0) = []) by reflexivity.
  assert (h4 : [64; 1; 2] <> []) by discriminate.
  assert (h5 : (length [64; 1; 2] <= 8)%nat) by (cbn; lia).
  split; [split; [exact h1|split; [exact h2|split; [exact h3|split; [exact h4|exact h5]]]]|].
  exact (i2c_transmission 8 [64; 1; 2] (mkI2C 120 0 0 [] 0 0 0 0) h1 h2 h3 h4 h5).
Defined.

Lemma i2c_error_stalls_witness :
  (In TW_MT_DATA_NACK [TW_BUS_ERROR; TW_MT_SLA_NACK; TW_MT_DATA_NACK; TW_MT_ARB_LOST] /\
   i2c_busy (mkI2C 120 68 1 [5; 6] 0 0 0 0) <> 0 /\ (1 <= 8)%nat) /\
  (let s1 := isr_twi (set_TWSR TW_MT_DATA_NACK (mkI2C 120 68 1 [5; 6] 0 0 0 0)) in
   sendbuf s1 = [] /\ i2c_should_end s1 = 0 /\ Z.land (i2c_state s1) I2C_ERROR <> 0 /\
   i2c_busy s1 <> 0 /\ Z.testbit (TWCR s1) TWSTO = true /\ Z.testbit (TWCR s1) TWIE = false /\
   (forall F_CPU I2C_BITRATE address, i2c_init F_CPU I2C_BITRATE address s1 = None) /\
   (forall d1 d2 d3 lb, exists s2 s3,
      i2c_write 8 d1 1 s1 = Some s2 /\
      s2 = set_i2c_state (Z.land (i2c_state s1) (Z.lnot I2C_ERROR)) s1 /\
      sendbuf s2 = [] /\ Z.land (i2c_state s2) I2C_ERROR = 0 /\ i2c_busy s2 <> 0 /\
      i2c_write 8 d2 1 s2 = Some s3 /\
      sendbuf s3 = [d2] /\ i2c_should_end s3 = 1 /\
      TWCR s3 = TWCR s1 /\ i2c_busy s3 <> 0 /\ i2c_write 8 d3 lb s3 = None)).
Proof.
  assert (h1 : In TW_MT_DATA_NACK
                 [TW_BUS_ERROR; TW_MT_SLA_NACK; TW_MT_DATA_NACK; TW_MT_ARB_LOST])
    by (right; right; left; reflexivity).
  assert (h2 : i2c_busy (mkI2C 120 68 1 [5; 6] 0 0 0 0) <> 0)
    by (vm_compute; intros H; discriminate H).
  assert (h3 : (1 <= 8)%nat) by lia.
  split; [split; [exact h1|split; [exact h2|exact h3]]|].
  exact (i2c_error_stalls 8 TW_MT_DATA_NACK (mkI2C 120 68 1 [5; 6] 0 0 0 0) h1 h2 h3).
Defined.
